(** * The cache-aside retrieval protocol of the file caching service

    A shallow embedding of [internal/handlers/handlers.go] together with the
    two port interfaces ([cache.Cache], [storage.Storage]), the Redis-backed
    cache and the in-memory mocks of [internal/mocks].

    Conventions of the embedding.
    - A Go value of type [[]byte] is a [list byte]; the handler never
      compares a slice with [nil], so the nil slice and the empty slice are
      both [[]].
    - A Go [error] is a value of the inductive type [error]; a possibly-nil
      error is an [option error].
    - A pointer to a mutable object (the ports, the response writer) is the
      current value of that object; every operation returns the new value
      next to its results.
    - The ports are interfaces: type classes over the type of the object
      behind the interface.
    - [http.ResponseWriter] is a recorder: header map, status code, body.
    - Structured logging, the Prometheus counters and every call made on a
      port are appended, in program order, to one list of [Event]s.  Times
      and durations are not part of the model: a histogram observation is
      recorded without its value, and the one place where time decides
      control flow, [ctx.Err()] in [GetFile], reads its answer from the
      request.
    - A goroutine is the closure it runs; it is queued by [go] and run
      later by [settle].
    [MetricsMiddleware], which only measures, and the configuration loader
    are left out. *)

From Stdlib Require Import Ascii String.
From stdpp Require Import base option list strings gmap.

Local Open Scope string_scope.

(** ** Go runtime: bytes, errors, [strings], [path/filepath] *)

Abbreviation bytes := (list Byte.byte).

(** [error] values built by the repository and by the Redis client.
    [errors.New s] and [fmt.Errorf (prefix ++ "%w") e] are the two
    constructions used; [RedisError s] is go-redis' string-typed error, of
    which [redis.Nil] is the constant compared against in [RedisCache.Get]. *)
Inductive error : Type :=
  | errors_New (text : string)
  | RedisError (text : string)
  | fmt_Errorf_w (prefix : string) (wrapped : error).

(** [err.Error()] *)
Fixpoint Error (err : error) : string :=
  match err with
  | errors_New text => text
  | RedisError text => text
  | fmt_Errorf_w prefix wrapped => prefix +:+ Error wrapped
  end.

Global Instance error_eq_dec : EqDecision error.
Proof. solve_decision. Defined.

(** [strings.Contains s substr]: [substr] occurs somewhere within [s]. *)
Fixpoint strings_Contains (s substr : string) : bool :=
  String.prefix substr s ||
  match s with
  | EmptyString => false
  | String _ rest => strings_Contains rest substr
  end.

(** [filepath.Ext path] on a slash-separated platform.  The library scans
    [path] backwards from its last byte, stops at a separator, and returns
    the suffix that starts at the first dot it meets:

      for i := len(path) - 1; i >= 0 && !os.IsPathSeparator(path[i]); i-- {
        if path[i] == '.' { return path[i:] }
      }
      return ""

    [filepath_Ext_loop] is that loop: [before] holds [path[0..i]] reversed,
    [after] holds [path[i+1:]]. *)
Fixpoint filepath_Ext_loop (before : list ascii) (after : string) : string :=
  match before with
  | [] => ""
  | c :: before' =>
      if Ascii.eqb c "/"%char then ""
      else if Ascii.eqb c "."%char then String c after
      else filepath_Ext_loop before' (String c after)
  end.

Definition filepath_Ext (path : string) : string :=
  filepath_Ext_loop (rev (list_ascii_of_string path)) "".

(** ** HTTP status codes used by the handlers *)

Definition StatusOK : Z := 200.
Definition StatusBadRequest : Z := 400.
Definition StatusNotFound : Z := 404.
Definition StatusInternalServerError : Z := 500.
Definition StatusServiceUnavailable : Z := 503.
Definition StatusGatewayTimeout : Z := 504.

(** ** Package [cache]: the Cache port *)

(** [cache.Cache].  [Set] is a reserved word, hence the [cache_] prefix. *)
Class Cache (C : Type) : Type := {
  cache_Get : C → string → (bytes * bool * option error) * C;
  cache_Set : C → string → bytes → option error * C;
  cache_Ping : C → option error * C;
  cache_Close : C → option error * C;
}.

(** ** Package [storage]: the Storage port *)

Class Storage (S : Type) : Type := {
  GetObject : S → string → (bytes * option error) * S;
  PutObject : S → string → bytes → string → option error * S;
  DeleteObject : S → string → option error * S;
  ObjectExists : S → string → (bool * option error) * S;
  HealthCheck : S → option error * S;
}.

(** ** Package [cache]: the Redis implementation *)

(** The operations of [*redis.Client] that [RedisCache] uses, each taken
    together with the accessor applied to its result ([.Bytes()], [.Err()]).
    The client library is outside the repository: its behaviour is a
    parameter. *)
Class RedisClient (R : Type) : Type := {
  client_Get_Bytes : R → string → (bytes * option error) * R;
  client_Set_Err : R → string → bytes → Z → option error * R;
  client_Ping_Err : R → option error * R;
  client_Close : R → option error * R;
}.

Definition redis_Nil : error := RedisError "redis: nil".

Module RedisCache.
Section RedisCache.
Context {R : Type} `{!RedisClient R}.

Record t : Type := mk { client : R; ttl : Z }.

Definition Get (c : t) (key : string) : (bytes * bool * option error) * t :=
    let '((data, err), cl) := client_Get_Bytes (client c) key in
    let c' := mk cl (ttl c) in
    if decide (err = Some redis_Nil) then
      (* Key doesn't exist - cache miss *)
      (([], false, None), c')
    else
      match err with
      | Some e => (([], false, Some (fmt_Errorf_w "redis get error: " e)), c')
      | None => ((data, true, None), c')   (* Cache hit *)
      end.

Definition Set_ (c : t) (key : string) (data : bytes) : option error * t :=
    let '(err, cl) := client_Set_Err (client c) key data (ttl c) in
    let c' := mk cl (ttl c) in
    match err with
    | Some e => (Some (fmt_Errorf_w "redis set error: " e), c')
    | None => (None, c')
    end.

Definition Close (c : t) : option error * t :=
    let '(err, cl) := client_Close (client c) in (err, mk cl (ttl c)).

Definition Ping (c : t) : option error * t :=
    let '(err, cl) := client_Ping_Err (client c) in (err, mk cl (ttl c)).

#[global] Instance RedisCache_Cache : Cache t :=
    {| cache_Get := Get; cache_Set := Set_; cache_Ping := Ping; cache_Close := Close |}.
End RedisCache.
Arguments t R : clear implicits.
End RedisCache.

(** ** Package [mocks] *)

Module MockCache.
Record SetCall : Type := mkSetCall { Key : string; Data : bytes }.

Record t : Type := mk {
    data : gmap string bytes;
    (* Control behavior *)
    GetError : option error;
    SetError : option error;
    PingError : option error;
    CloseError : option error;
    (* Track calls *)
    GetCalls : list string;
    SetCalls : list SetCall;
    PingCalls : Z;
    CloseCalls : Z;
  }.

Definition NewMockCache : t :=
    mk ∅ None None None None [] [] 0 0.

Definition Get (m : t) (key : string) : (bytes * bool * option error) * t :=
    let m := mk (data m) (GetError m) (SetError m) (PingError m) (CloseError m)
                (GetCalls m ++ [key]) (SetCalls m) (PingCalls m) (CloseCalls m) in
    match GetError m with
    | Some e => (([], false, Some e), m)
    | None =>
        match data m !! key with
        | Some d => ((d, true, None), m)
        | None => (([], false, None), m)
        end
    end.

Definition Set_ (m : t) (key : string) (d : bytes) : option error * t :=
    let m := mk (data m) (GetError m) (SetError m) (PingError m) (CloseError m)
                (GetCalls m) (SetCalls m ++ [mkSetCall key d]) (PingCalls m) (CloseCalls m) in
    match SetError m with
    | Some e => (Some e, m)
    | None =>
        (None, mk (<[key := d]> (data m)) (GetError m) (SetError m) (PingError m)
                  (CloseError m) (GetCalls m) (SetCalls m) (PingCalls m) (CloseCalls m))
    end.

Definition Ping (m : t) : option error * t :=
    (PingError m,
     mk (data m) (GetError m) (SetError m) (PingError m) (CloseError m)
        (GetCalls m) (SetCalls m) (PingCalls m + 1) (CloseCalls m)).

Definition Close (m : t) : option error * t :=
    (CloseError m,
     mk (data m) (GetError m) (SetError m) (PingError m) (CloseError m)
        (GetCalls m) (SetCalls m) (PingCalls m) (CloseCalls m + 1)).

  (** [SetData] pre-populates cache data for testing *)
Definition SetData (m : t) (key : string) (d : bytes) : t :=
    mk (<[key := d]> (data m)) (GetError m) (SetError m) (PingError m) (CloseError m)
       (GetCalls m) (SetCalls m) (PingCalls m) (CloseCalls m).

Definition ClearData (m : t) : t :=
    mk ∅ (GetError m) (SetError m) (PingError m) (CloseError m)
       (GetCalls m) (SetCalls m) (PingCalls m) (CloseCalls m).

Definition Reset (m : t) : t := NewMockCache.

Definition ErrCacheUnavailable : error := errors_New "cache unavailable".
Definition ErrCacheTimeout : error := errors_New "cache timeout".

#[global] Instance MockCache_Cache : Cache t :=
    {| cache_Get := Get; cache_Set := Set_; cache_Ping := Ping; cache_Close := Close |}.
End MockCache.

Module MockStorage.
Record PutCall : Type := mkPutCall { Key : string; ContentType : string; Data : bytes }.

Record t : Type := mk {
    objects : gmap string bytes;
    (* Control behavior *)
    GetError : option error;
    PutError : option error;
    DeleteError : option error;
    ExistsError : option error;
    HealthCheckError : option error;
    (* Track calls *)
    GetCalls : list string;
    PutCalls : list PutCall;
    DeleteCalls : list string;
    ExistsCalls : list string;
    HealthCheckCalls : Z;
  }.

Definition NewMockStorage : t :=
    mk ∅ None None None None None [] [] [] [] 0.

Definition GetObject (m : t) (key : string) : (bytes * option error) * t :=
    let m := mk (objects m) (GetError m) (PutError m) (DeleteError m) (ExistsError m)
                (HealthCheckError m) (GetCalls m ++ [key]) (PutCalls m) (DeleteCalls m)
                (ExistsCalls m) (HealthCheckCalls m) in
    match GetError m with
    | Some e => (([], Some e), m)
    | None =>
        match objects m !! key with
        | Some d => ((d, None), m)
        | None => (([], Some (errors_New "NoSuchKey: The specified key does not exist")), m)
        end
    end.

  (** [io.ReadAll data] on the in-memory readers the tests pass never fails:
      the reader is its content. *)
Definition PutObject (m : t) (key : string) (content : bytes) (contentType : string)
    : option error * t :=
    let m := mk (objects m) (GetError m) (PutError m) (DeleteError m) (ExistsError m)
                (HealthCheckError m) (GetCalls m)
                (PutCalls m ++ [mkPutCall key contentType content]) (DeleteCalls m)
                (ExistsCalls m) (HealthCheckCalls m) in
    match PutError m with
    | Some e => (Some e, m)
    | None =>
        (None, mk (<[key := content]> (objects m)) (GetError m) (PutError m) (DeleteError m)
                  (ExistsError m) (HealthCheckError m) (GetCalls m) (PutCalls m)
                  (DeleteCalls m) (ExistsCalls m) (HealthCheckCalls m))
    end.

Definition DeleteObject (m : t) (key : string) : option error * t :=
    let m := mk (objects m) (GetError m) (PutError m) (DeleteError m) (ExistsError m)
                (HealthCheckError m) (GetCalls m) (PutCalls m) (DeleteCalls m ++ [key])
                (ExistsCalls m) (HealthCheckCalls m) in
    match DeleteError m with
    | Some e => (Some e, m)
    | None =>
        (None, mk (delete key (objects m)) (GetError m) (PutError m) (DeleteError m)
                  (ExistsError m) (HealthCheckError m) (GetCalls m) (PutCalls m)
                  (DeleteCalls m) (ExistsCalls m) (HealthCheckCalls m))
    end.

Definition ObjectExists (m : t) (key : string) : (bool * option error) * t :=
    let m := mk (objects m) (GetError m) (PutError m) (DeleteError m) (ExistsError m)
                (HealthCheckError m) (GetCalls m) (PutCalls m) (DeleteCalls m)
                (ExistsCalls m ++ [key]) (HealthCheckCalls m) in
    match ExistsError m with
    | Some e => ((false, Some e), m)
    | None => ((bool_decide (is_Some (objects m !! key)), None), m)
    end.

Definition HealthCheck (m : t) : option error * t :=
    (HealthCheckError m,
     mk (objects m) (GetError m) (PutError m) (DeleteError m) (ExistsError m)
        (HealthCheckError m) (GetCalls m) (PutCalls m) (DeleteCalls m)
        (ExistsCalls m) (HealthCheckCalls m + 1)).

  (** [SetObject] pre-populates storage data for testing *)
Definition SetObject (m : t) (key : string) (d : bytes) : t :=
    mk (<[key := d]> (objects m)) (GetError m) (PutError m) (DeleteError m) (ExistsError m)
       (HealthCheckError m) (GetCalls m) (PutCalls m) (DeleteCalls m)
       (ExistsCalls m) (HealthCheckCalls m).

Definition ClearObjects (m : t) : t :=
    mk ∅ (GetError m) (PutError m) (DeleteError m) (ExistsError m)
       (HealthCheckError m) (GetCalls m) (PutCalls m) (DeleteCalls m)
       (ExistsCalls m) (HealthCheckCalls m).

Definition Reset (m : t) : t := NewMockStorage.

Definition ErrObjectNotFound : error :=
    errors_New "NoSuchKey: The specified key does not exist".
Definition ErrStorageTimeout : error := errors_New "storage timeout".
Definition ErrStorageError : error := errors_New "storage error".
Definition ErrBucketNotFound : error := errors_New "bucket not found".

#[global] Instance MockStorage_Storage : Storage t :=
  Build_Storage t GetObject PutObject DeleteObject ObjectExists HealthCheck.
End MockStorage.

(** ** Package [handlers] *)

(** [Response] is the standard API response structure.  [Data] is [nil] or
    a [map[string]string] in every use the handlers make of it. *)
Record Response : Type := mkResponse {
  Success : bool;
  Message : string;
  Data : option (gmap string string);
}.

(** What a handler writes to the body: the raw bytes of a file, or the JSON
    encoding of a [Response] (kept as the value that is encoded). *)
Inductive Chunk : Type :=
  | Raw (b : bytes)
  | JSON (v : Response).

Record ResponseWriter : Type := mkResponseWriter {
  Header : gmap string (list string);
  statusCode : option Z;
  body : list Chunk;
}.

Definition NewRecorder : ResponseWriter := mkResponseWriter ∅ None [].

(** [w.Header().Set(key, value)] *)
Definition Header_Set (key value : string) (w : ResponseWriter) : ResponseWriter :=
  mkResponseWriter (<[key := [value]]> (Header w)) (statusCode w) (body w).

(** [w.WriteHeader(code)]: only the first call counts. *)
Definition WriteHeader (code : Z) (w : ResponseWriter) : ResponseWriter :=
  match statusCode w with
  | Some _ => w
  | None => mkResponseWriter (Header w) (Some code) (body w)
  end.

(** [w.Write(...)]: sends the status 200 first if none was sent yet. *)
Definition Write (c : Chunk) (w : ResponseWriter) : ResponseWriter :=
  let w := WriteHeader StatusOK w in
  mkResponseWriter (Header w) (statusCode w) (body w ++ [c]).

Inductive ContextError : Type := Canceled | DeadlineExceeded.

Global Instance ContextError_eq_dec : EqDecision ContextError.
Proof. solve_decision. Defined.

(** An inbound request: the path wildcards matched by the router, and what
    [ctx.Err()] reports for the context derived from [r.Context()] at the
    moment the handler consults it. *)
Record Request : Type := mkRequest {
  pathValues : gmap string string;
  ctx_Err : option ContextError;
}.

(** [r.PathValue(name)]: the empty string when there is no such wildcard. *)
Definition PathValue (r : Request) (name : string) : string :=
  default "" (pathValues r !! name).

Inductive Level : Type := LevelInfo | LevelError.

Inductive Counter : Type :=
  | CacheHitsTotal
  | CacheMissesTotal
  | R2RequestsTotal (operation status : string).

Inductive Histogram : Type :=
  | CacheOperationDuration (operation : string)
  | R2RequestDuration (operation : string).

(** The closure started by [go func() { ... }()] in [GetFile], with the
    variables it captures. *)
Inductive Goroutine : Type :=
  | WriteBack (filename : string) (data : bytes).

Inductive Event : Type :=
  | EvLog (level : Level) (msg : string) (attrs : list (string * string))
  | EvInc (c : Counter)
  | EvObserve (h : Histogram)
  | EvCacheGet (key : string) (data : bytes) (found : bool) (err : option error)
  | EvCacheSet (key : string) (data : bytes) (err : option error)
  | EvCachePing (err : option error)
  | EvStorageGetObject (key : string) (data : bytes) (err : option error)
  | EvStorageHealthCheck (err : option error).

Definition isCacheCall (e : Event) : bool :=
  match e with
  | EvCacheGet _ _ _ _ | EvCacheSet _ _ _ | EvCachePing _ => true
  | _ => false
  end.

Definition isStorageCall (e : Event) : bool :=
  match e with
  | EvStorageGetObject _ _ _ | EvStorageHealthCheck _ => true
  | _ => false
  end.

Definition isPortCall (e : Event) : bool := isCacheCall e || isStorageCall e.

(** The one-character string holding a double quote (byte 34). *)
Definition dquote : string := String (ascii_of_nat 34) EmptyString.

Definition isNotFoundError (err : error) : bool :=
  strings_Contains (Error err) "NoSuchKey" ||
  strings_Contains (Error err) "not found".

Section handlers.
Context {C S : Type} `{!Cache C, !Storage S}.

(** [mime.TypeByExtension]: the extension-to-MIME table of the platform,
    [""] for an extension it does not know. *)
Variable TypeByExtension : string → string.

(** [FileHandler] handles file-related HTTP requests; a [nil] cache is
    [None]. *)
Record FileHandler : Type := NewFileHandler {
  cache : option C;
  storage : S;
}.

(** Everything a handler run can change. *)
Record State : Type := mkState {
  handler : FileHandler;
  w : ResponseWriter;
  events : list Event;
  spawned : list Goroutine;
}.

Definition M (A : Type) : Type := State → A * State.

#[local] Instance M_ret : MRet M := λ A a st, (a, st).
#[local] Instance M_bind : MBind M := λ A B f m st, let '(a, st') := m st in f a st'.

Definition emit (e : Event) : M unit :=
  λ st, (tt, mkState (handler st) (w st) (events st ++ [e]) (spawned st)).

Definition slog_Info (msg : string) (attrs : list (string * string)) : M unit :=
  emit (EvLog LevelInfo msg attrs).

Definition slog_Error (msg : string) (attrs : list (string * string)) : M unit :=
  emit (EvLog LevelError msg attrs).

Definition onWriter (f : ResponseWriter → ResponseWriter) : M unit :=
  λ st, (tt, mkState (handler st) (f (w st)) (events st) (spawned st)).

Definition go (g : Goroutine) : M unit :=
  λ st, (tt, mkState (handler st) (w st) (events st) (spawned st ++ [g])).

Definition h_cache : M (option C) := λ st, (cache (handler st), st).

(** A call on the cache object [c] that [h.cache] points to. *)
Definition onCache {A : Type} (op : C → A * C) (c : C) : M A :=
  λ st, let '(a, c') := op c in
        (a, mkState (NewFileHandler (Some c') (storage (handler st)))
                    (w st) (events st) (spawned st)).

(** A call on the storage object that [h.storage] points to. *)
Definition onStorage {A : Type} (op : S → A * S) : M A :=
  λ st, let '(a, s') := op (storage (handler st)) in
        (a, mkState (NewFileHandler (cache (handler st)) s')
                    (w st) (events st) (spawned st)).

Definition h_cache_Get (c : C) (key : string) : M (bytes * bool * option error) :=
  '(data, found, err) ← onCache (λ c, cache_Get c key) c;
  emit (EvCacheGet key data found err);;
  mret (data, found, err).

Definition h_cache_Set (c : C) (key : string) (data : bytes) : M (option error) :=
  err ← onCache (λ c, cache_Set c key data) c;
  emit (EvCacheSet key data err);;
  mret err.

Definition h_cache_Ping (c : C) : M (option error) :=
  err ← onCache cache_Ping c;
  emit (EvCachePing err);;
  mret err.

Definition h_storage_GetObject (key : string) : M (bytes * option error) :=
  '(data, err) ← onStorage (λ s, GetObject s key);
  emit (EvStorageGetObject key data err);;
  mret (data, err).

Definition h_storage_HealthCheck : M (option error) :=
  err ← onStorage HealthCheck;
  emit (EvStorageHealthCheck err);;
  mret err.

Definition writeJSON (status : Z) (data : Response) : M unit :=
  onWriter (Header_Set "Content-Type" "application/json");;
  onWriter (WriteHeader status);;
  onWriter (Write (JSON data)).

Definition writeFileResponse (filename : string) (data : bytes) : M unit :=
  let contentType := TypeByExtension (filepath_Ext filename) in
  let contentType :=
    if String.eqb contentType "" then "application/octet-stream" else contentType in
  onWriter (Header_Set "Content-Type" contentType);;
  onWriter (Header_Set "Content-Disposition" ("inline; filename=" +:+ dquote +:+ filename +:+ dquote));;
  onWriter (WriteHeader StatusOK);;
  onWriter (Write (Raw data)).

(** [Health] handles health check requests *)
Definition Health (r : Request) : M unit :=
  let health : gmap string string := {[ "status" := "healthy" ]} in
  (* Check cache (optional - doesn't affect overall health) *)
  c ← h_cache;
  health ← match c with
           | Some c =>
               err ← h_cache_Ping c;
               match err with
               | Some e => mret (<["redis" := "unhealthy: " +:+ Error e]> health)
               | None => mret (<["redis" := "healthy"]> health)
               end
           | None => mret (<["redis" := "disabled"]> health)
           end;
  (* Check storage (required - affects overall health) *)
  err ← h_storage_HealthCheck;
  match err with
  | Some e =>
      let health := <["status" := "unhealthy"]> health in
      let health := <["r2" := "unhealthy: " +:+ Error e]> health in
      writeJSON StatusServiceUnavailable
        (mkResponse false "Service is unhealthy" (Some health))
  | None =>
      let health := <["r2" := "healthy"]> health in
      writeJSON StatusOK (mkResponse true "Service is healthy" (Some health))
  end.

(** [Root] handles the root endpoint *)
Definition Root (r : Request) : M unit :=
  writeJSON StatusOK
    (mkResponse true "File Caching Service" (Some {[ "version" := "1.0.0" ]})).

(** [GetFile] handles file retrieval requests.  The first component of the
    inner results says whether the handler has already returned. *)
Definition GetFile (r : Request) : M unit :=
  let filename := PathValue r "name" in
  if String.eqb filename "" then
    writeJSON StatusBadRequest (mkResponse false "filename is required" None)
  else
    (* Check cache only if available *)
    c ← h_cache;
    returned ← match c with
               | Some c =>
                   '(data, found, err) ← h_cache_Get c filename;
                   emit (EvObserve (CacheOperationDuration "get"));;
                   match err with
                   | Some e =>
                       slog_Error "Cache error" [("filename", filename); ("error", Error e)]
                   | None => mret tt
                   end;;
                   if found : bool then
                     emit (EvInc CacheHitsTotal);;
                     slog_Info "Cache HIT" [("filename", filename)];;
                     writeFileResponse filename data;;
                     mret true
                   else
                     emit (EvInc CacheMissesTotal);;
                     slog_Info "Cache MISS" [("filename", filename)];;
                     mret false
               | None =>
                   slog_Info "Cache disabled, fetching from storage" [("filename", filename)];;
                   mret false
               end;
    if returned : bool then mret tt
    else
      (* Fetch from storage *)
      '(data, err) ← h_storage_GetObject filename;
      emit (EvObserve (R2RequestDuration "get"));;
      match err with
      | Some e =>
          emit (EvInc (R2RequestsTotal "get" "error"));;
          slog_Error "Storage error" [("filename", filename); ("error", Error e)];;
          if decide (ctx_Err r = Some DeadlineExceeded) then
            writeJSON StatusGatewayTimeout (mkResponse false "Request timeout" None)
          else if isNotFoundError e then
            writeJSON StatusNotFound (mkResponse false "File not found" None)
          else
            writeJSON StatusInternalServerError
              (mkResponse false "Failed to retrieve file" None)
      | None =>
          emit (EvInc (R2RequestsTotal "get" "success"));;
          (* Cache the file only if cache is available *)
          c ← h_cache;
          match c with
          | Some _ => go (WriteBack filename data)
          | None => mret tt
          end;;
          writeFileResponse filename data
      end.

(** The body of the goroutine that [GetFile] starts, run at some later
    point against the then-current cache object. *)
Definition run_goroutine (g : Goroutine) : M unit :=
  match g with
  | WriteBack filename data =>
      c ← h_cache;
      match c with
      | Some c =>
          err ← h_cache_Set c filename data;
          match err with
          | Some e =>
              slog_Error "Failed to cache file" [("filename", filename); ("error", Error e)]
          | None => slog_Info "Cached file" [("filename", filename)]
          end;;
          emit (EvObserve (CacheOperationDuration "set"))
      | None => mret tt
      end
  end.

(** A request served on a fresh response recorder, with an empty event
    list and no goroutine pending. *)
Definition serve (handle : Request → M unit) (h : FileHandler) (r : Request) : State :=
  snd (handle r (mkState h NewRecorder [] [])).

(** The goroutines started while serving are run once the response is out:
    [settle] runs those of [st], in the order they were started, against
    the handler as [st] left it, recording their events in a new list. *)
Definition settle (st : State) : State :=
  foldl (λ acc g, snd (run_goroutine g acc))
        (mkState (handler st) (w st) [] []) (spawned st).

End handlers.

(** ** The cache implementations of the repository *)

(** [RedisCache] and [MockCache] are the two types of the repository that
    implement [cache.Cache]; a cache handed to [NewFileHandler] is one of
    them. *)
Inductive RepoCache (R : Type) : Type :=
  | OfRedis (c : RedisCache.t R)
  | OfMock (m : MockCache.t).
Arguments OfRedis {R} c.
Arguments OfMock {R} m.

Definition RepoCache_Get {R : Type} `{!RedisClient R} (c : RepoCache R) (key : string)
  : (bytes * bool * option error) * RepoCache R :=
  match c with
  | OfRedis c => let '(res, c') := RedisCache.Get c key in (res, OfRedis c')
  | OfMock m => let '(res, m') := MockCache.Get m key in (res, OfMock m')
  end.

Definition RepoCache_Set {R : Type} `{!RedisClient R} (c : RepoCache R) (key : string)
  (data : bytes) : option error * RepoCache R :=
  match c with
  | OfRedis c => let '(res, c') := RedisCache.Set_ c key data in (res, OfRedis c')
  | OfMock m => let '(res, m') := MockCache.Set_ m key data in (res, OfMock m')
  end.

Definition RepoCache_Ping {R : Type} `{!RedisClient R} (c : RepoCache R)
  : option error * RepoCache R :=
  match c with
  | OfRedis c => let '(res, c') := RedisCache.Ping c in (res, OfRedis c')
  | OfMock m => let '(res, m') := MockCache.Ping m in (res, OfMock m')
  end.

Definition RepoCache_Close {R : Type} `{!RedisClient R} (c : RepoCache R)
  : option error * RepoCache R :=
  match c with
  | OfRedis c => let '(res, c') := RedisCache.Close c in (res, OfRedis c')
  | OfMock m => let '(res, m') := MockCache.Close m in (res, OfMock m')
  end.

Global Instance RepoCache_Cache {R : Type} `{!RedisClient R} : Cache (RepoCache R) :=
  {| cache_Get := RepoCache_Get; cache_Set := RepoCache_Set;
     cache_Ping := RepoCache_Ping; cache_Close := RepoCache_Close |}.

(** ** Expected outcomes, used to state what the handlers do *)

(** The recorder after [writeJSON status v] on a fresh recorder. *)
Definition jsonWriter (status : Z) (v : Response) : ResponseWriter :=
  mkResponseWriter {[ "Content-Type" := ["application/json"] ]} (Some status) [JSON v].

(** The content type [writeFileResponse] picks for [filename]. *)
Definition contentTypeOf (TypeByExtension : string → string) (filename : string) : string :=
  if String.eqb (TypeByExtension (filepath_Ext filename)) ""
  then "application/octet-stream"
  else TypeByExtension (filepath_Ext filename).

(** The recorder after [writeFileResponse filename data] on a fresh
    recorder. *)
Definition fileWriter (TypeByExtension : string → string) (filename : string)
  (data : bytes) : ResponseWriter :=
  mkResponseWriter
    (<["Content-Disposition" := ["inline; filename=" +:+ dquote +:+ filename +:+ dquote]]>
       {[ "Content-Type" := [contentTypeOf TypeByExtension filename] ]})
    (Some StatusOK) [Raw data].

Definition cacheErrorLog (filename : string) (err : option error) : list Event :=
  match err with
  | Some e => [EvLog LevelError "Cache error" [("filename", filename); ("error", Error e)]]
  | None => []
  end.

Definition hitEvents (filename : string) (data : bytes) (err : option error) : list Event :=
  [EvCacheGet filename data true err; EvObserve (CacheOperationDuration "get")]
  ++ cacheErrorLog filename err
  ++ [EvInc CacheHitsTotal; EvLog LevelInfo "Cache HIT" [("filename", filename)]].

Definition missEvents (filename : string) (data : bytes) (err : option error) : list Event :=
  [EvCacheGet filename data false err; EvObserve (CacheOperationDuration "get")]
  ++ cacheErrorLog filename err
  ++ [EvInc CacheMissesTotal; EvLog LevelInfo "Cache MISS" [("filename", filename)]].

Definition disabledEvents (filename : string) : list Event :=
  [EvLog LevelInfo "Cache disabled, fetching from storage" [("filename", filename)]].

Definition storageEvents (filename : string) (data : bytes) (err : option error)
  : list Event :=
  [EvStorageGetObject filename data err; EvObserve (R2RequestDuration "get")]
  ++ match err with
     | Some e =>
         [EvInc (R2RequestsTotal "get" "error");
          EvLog LevelError "Storage error" [("filename", filename); ("error", Error e)]]
     | None => [EvInc (R2RequestsTotal "get" "success")]
     end.

(** The recorder after the storage branch of [GetFile]. *)
Definition storageWriter (TypeByExtension : string → string) (r : Request)
  (filename : string) (data : bytes) (err : option error) : ResponseWriter :=
  match err with
  | Some e =>
      if decide (ctx_Err r = Some DeadlineExceeded) then
        jsonWriter StatusGatewayTimeout (mkResponse false "Request timeout" None)
      else if isNotFoundError e then
        jsonWriter StatusNotFound (mkResponse false "File not found" None)
      else
        jsonWriter StatusInternalServerError
          (mkResponse false "Failed to retrieve file" None)
  | None => fileWriter TypeByExtension filename data
  end.

(** The extension table of the Content-Type cases of the integration test
    ([test.pdf], [test.html], [test.json], [test.txt]); used to run the
    handlers on concrete requests. *)
Definition testTypeByExtension (ext : string) : string :=
  if String.eqb ext ".pdf" then "application/pdf"
  else if String.eqb ext ".html" then "text/html"
  else if String.eqb ext ".json" then "application/json"
  else if String.eqb ext ".txt" then "text/plain"
  else "".

(** A redis client that is never reachable; it stands for the client
    library where a concrete one is needed. *)
Inductive DownClient : Type := downClient.

Global Instance DownClient_RedisClient : RedisClient DownClient :=
  {| client_Get_Bytes := λ cl _, (([], Some (errors_New "dial tcp: connection refused")), cl);
     client_Set_Err := λ cl _ _ _, (Some (errors_New "dial tcp: connection refused"), cl);
     client_Ping_Err := λ cl, (Some (errors_New "dial tcp: connection refused"), cl);
     client_Close := λ cl, (None, cl) |}.

(** The request for [GET /files/{name}] whose context is still live. *)
Definition fileRequest (name : string) : Request :=
  mkRequest {[ "name" := name ]} None.

(** [responds st status c]: the response recorded in [st] has status code
    [status] and a body made of the single chunk [c]. *)
Definition responds {C S : Type} (st : @State C S) (status : Z) (c : Chunk) : Prop :=
  statusCode (w st) = Some status ∧ body (w st) = [c].

(** ** Concrete ports and requests *)

Definition hello : bytes := list_byte_of_string "hello".
Definition stale : bytes := list_byte_of_string "older copy".

(** Storage holding "hello" under "a.txt". *)
Definition helloStorage : MockStorage.t :=
  MockStorage.SetObject MockStorage.NewMockStorage "a.txt" hello.

(** Empty cache in front of [helloStorage]. *)
Definition coldHandler : @FileHandler MockCache.t MockStorage.t :=
  NewFileHandler (Some MockCache.NewMockCache) helloStorage.

(** A cache that already holds other bytes under "a.txt". *)
Definition warmHandler : @FileHandler MockCache.t MockStorage.t :=
  NewFileHandler (Some (MockCache.SetData MockCache.NewMockCache "a.txt" stale))
                 helloStorage.

(** No cache configured. *)
Definition uncachedHandler : @FileHandler MockCache.t MockStorage.t :=
  NewFileHandler None helloStorage.

(** A Redis cache whose server cannot be reached. *)
Definition unreachableRedisHandler : @FileHandler (RepoCache DownClient) MockStorage.t :=
  NewFileHandler (Some (OfRedis (RedisCache.mk downClient 300))) helloStorage.

(** A storage mock set to fail every [GetObject] with [ErrStorageError]. *)
Definition brokenStorage : MockStorage.t :=
  MockStorage.mk ∅ (Some MockStorage.ErrStorageError) None None None None [] [] [] [] 0.

Definition brokenStorageHandler : @FileHandler MockCache.t MockStorage.t :=
  NewFileHandler (Some MockCache.NewMockCache) brokenStorage.

(** Storage holding a zero-length object under "empty.bin". *)
Definition emptyObjectHandler : @FileHandler MockCache.t MockStorage.t :=
  NewFileHandler (Some MockCache.NewMockCache)
                 (MockStorage.SetObject MockStorage.NewMockStorage "empty.bin" []).

(** ** Tactics for running the handlers symbolically *)

Ltac run_monad :=
  unfold serve, GetFile, Health, run_goroutine, h_cache, h_cache_Get, h_cache_Set,
    h_cache_Ping, h_storage_GetObject, h_storage_HealthCheck, onCache, onStorage,
    slog_Info, slog_Error, emit, go, mbind, M_bind, mret, M_ret.

Ltac ev_unfold :=
  unfold hitEvents, missEvents, disabledEvents, storageEvents, cacheErrorLog in *.

(** Decompose a membership hypothesis in a list of events. *)
Ltac ev_inv H :=
  cbn [events] in H; ev_unfold;
  repeat first
    [ rewrite elem_of_app in H
    | rewrite elem_of_cons in H
    | rewrite elem_of_nil in H ];
  repeat match type of H with
         | _ ∨ _ => destruct H as [H|H]
         | False => destruct H
         end;
  try discriminate H.

(** Prove a membership in a list of events. *)
Ltac ev_in :=
  cbn [events]; ev_unfold; rewrite ?elem_of_app, ?elem_of_cons; naive_solver.

(** The write-back that a [Set] call on the cache carries out. *)
Definition setCallOf (ev : Event) : option Goroutine :=
  match ev with
  | EvCacheSet key data _ => Some (WriteBack key data)
  | _ => None
  end.

(** A sequence of requests served one after the other, the goroutines of
    each request being run before the next request arrives. *)
Definition serveAll {C S : Type} `{!Cache C, !Storage S} (TypeByExtension : string → string)
  (h : @FileHandler C S) (rs : list Request) : @FileHandler C S :=
  foldl (λ h r, handler (settle (serve (GetFile TypeByExtension) h r))) h rs.

(** ** Package [config] *)

(** [strings.ToLower].  The library first scans the bytes of [s]: if all
    of them are below [utf8.RuneSelf] (128) it lower-cases the bytes 'A' to
    'Z' in place; otherwise it maps [unicode.ToLower] over the runes of
    [s].  The Unicode tables are outside the repository: that second
    branch is the parameter [unicodeLower]. *)
Definition isASCII (s : string) : bool :=
  forallb (λ c, Nat.ltb (nat_of_ascii c) 128) (list_ascii_of_string s).

Definition asciiLowerByte (c : ascii) : ascii :=
  if Nat.leb 65 (nat_of_ascii c) && Nat.leb (nat_of_ascii c) 90
  then ascii_of_nat (nat_of_ascii c + 32)
  else c.

Fixpoint asciiLower (s : string) : string :=
  match s with
  | EmptyString => EmptyString
  | String c rest => String (asciiLowerByte c) (asciiLower rest)
  end.

Definition strings_ToLower (unicodeLower : string → string) (s : string) : string :=
  if isASCII s then asciiLower s else unicodeLower s.

Module config.

(** [RedisMode] defines how Redis is configured *)
Inductive RedisMode : Type :=
  | RedisModeDisabled   (* "disabled": no caching *)
  | RedisModeEnabled.   (* "enabled": Redis caching enabled *)

Record RedisConfig : Type := mkRedisConfig {
  Mode : RedisMode;
  Addr : string;
  Password : string;
  DB : Z;
  CacheTTL : Z;
  DialTimeout : Z;
  ReadTimeout : Z;
  WriteTimeout : Z;
}.

Record R2Config : Type := mkR2Config {
  AccountID : string;
  AccessKeyID : string;
  SecretAccessKey : string;
  BucketName : string;
}.

Record Config : Type := mkConfig {
  Port : string;
  LogLevel : string;
  Redis : RedisConfig;
  R2 : R2Config;
}.

(** [time.Duration] counts nanoseconds. *)
Definition Second : Z := 1000000000.
Definition Minute : Z := 60 * Second.

Section config.
(** The process environment, and the library functions that the loader
    calls: [strconv.Atoi], [time.ParseDuration] and the Unicode branch of
    [strings.ToLower]. *)
Variable env : gmap string string.
Variable Atoi : string → Z * option error.
Variable ParseDuration : string → Z * option error.
Variable unicodeLower : string → string.

(** [os.Getenv]: the empty string for a variable that is not set. *)
Definition os_Getenv (key : string) : string := default "" (env !! key).

Definition parseRedisMode (mode : string) : RedisMode :=
  let lowered := strings_ToLower unicodeLower mode in
  if String.eqb lowered "disabled" || String.eqb lowered "none"
     || String.eqb lowered "off" || String.eqb lowered "false"
  then RedisModeDisabled
  else RedisModeEnabled.

Definition getEnv (key defaultValue : string) : string :=
  let value := os_Getenv key in
  if negb (String.eqb value "") then value else defaultValue.

Definition getEnvAsInt (key : string) (defaultValue : Z) : Z :=
  let value := os_Getenv key in
  if negb (String.eqb value "") then
    match Atoi value with
    | (intVal, None) => intVal
    | (_, Some _) => defaultValue
    end
  else defaultValue.

Definition getEnvAsDuration (key : string) (defaultValue : Z) : Z :=
  let value := os_Getenv key in
  if negb (String.eqb value "") then
    match ParseDuration value with
    | (duration, None) => duration
    | (_, Some _) => defaultValue
    end
  else defaultValue.

Definition Load : Config :=
  let redisMode := parseRedisMode (getEnv "REDIS_MODE" "enabled") in
  mkConfig
    (getEnv "PORT" "8080")
    (getEnv "LOG_LEVEL" "info")
    (mkRedisConfig
       redisMode
       (getEnv "REDIS_ADDR" "localhost:6379")
       (getEnv "REDIS_PASSWORD" "")
       (getEnvAsInt "REDIS_DB" 0)
       (getEnvAsDuration "CACHE_TTL" (5 * Minute))
       (getEnvAsDuration "REDIS_DIAL_TIMEOUT" (2 * Second))
       (getEnvAsDuration "REDIS_READ_TIMEOUT" (5 * Second))
       (getEnvAsDuration "REDIS_WRITE_TIMEOUT" (5 * Second)))
    (mkR2Config
       (getEnv "R2_ACCOUNT_ID" "")
       (getEnv "R2_ACCESS_KEY_ID" "")
       (getEnv "R2_SECRET_ACCESS_KEY" "")
       (getEnv "R2_BUCKET_NAME" "")).

End config.
End config.

(** Parsers that accept nothing, standing for the library where concrete
    ones are needed. *)
Definition noAtoi (s : string) : Z * option error :=
  (0%Z, Some (errors_New "strconv.Atoi: parsing: invalid syntax")).
Definition noParseDuration (s : string) : Z * option error :=
  (0%Z, Some (errors_New "time: invalid duration")).

(** A cache mock whose [Set] is set to fail. *)
Definition readOnlyCache : MockCache.t :=
  MockCache.mk ∅ None (Some MockCache.ErrCacheTimeout) None None [] [] 0 0.

(** An environment that switches the cache off, in upper case. *)
Definition cacheOffEnv : gmap string string := {[ "REDIS_MODE" := "OFF" ]}.

(** Both mocks answer without injected error. *)
Definition mocksWork (h : @FileHandler MockCache.t MockStorage.t) : Prop :=
  (∃ m, cache h = Some m ∧ MockCache.GetError m = None ∧ MockCache.SetError m = None)
  ∧ MockStorage.GetError (storage h) = None.

(** The entry of the cache mock for a key. *)
Definition cached (h : @FileHandler MockCache.t MockStorage.t) (k : string)
  : option bytes :=
  from_option (λ m, MockCache.data m !! k) None (cache h).

(** [mime.TypeByExtension] as the Go library computes it when the platform
    provides no mime.types file, which is the case in the runtime image of
    the Dockerfile (alpine:3.19 with ca-certificates only): the lookup goes
    to the built-in table [builtinTypesLower] of mime/type.go, first with
    the extension as given and then lower-cased.  The keys of the table
    are lower-case, so the two lookups amount to one lookup of the
    lower-cased extension.  The table has no entry for ".txt". *)
Definition builtinTypesLower (ext : string) : string :=
  if String.eqb ext ".avif" then "image/avif"
  else if String.eqb ext ".css" then "text/css; charset=utf-8"
  else if String.eqb ext ".gif" then "image/gif"
  else if String.eqb ext ".htm" then "text/html; charset=utf-8"
  else if String.eqb ext ".html" then "text/html; charset=utf-8"
  else if String.eqb ext ".jpeg" then "image/jpeg"
  else if String.eqb ext ".jpg" then "image/jpeg"
  else if String.eqb ext ".js" then "text/javascript; charset=utf-8"
  else if String.eqb ext ".json" then "application/json"
  else if String.eqb ext ".mjs" then "text/javascript; charset=utf-8"
  else if String.eqb ext ".pdf" then "application/pdf"
  else if String.eqb ext ".png" then "image/png"
  else if String.eqb ext ".svg" then "image/svg+xml"
  else if String.eqb ext ".wasm" then "application/wasm"
  else if String.eqb ext ".webp" then "image/webp"
  else if String.eqb ext ".xml" then "text/xml; charset=utf-8"
  else "".

Definition goBuiltinTypeByExtension (unicodeLower : string → string) (ext : string)
  : string :=
  builtinTypesLower (strings_ToLower unicodeLower ext).

(** * Properties *)

(** ** The model against the repository's own tests *)

Example filepath_Ext_txt : filepath_Ext "a.txt" = ".txt".
Proof. reflexivity. Qed.

Example filepath_Ext_last_dot : filepath_Ext "backup.tar.gz" = ".gz".
Proof. reflexivity. Qed.

Example filepath_Ext_none : filepath_Ext "README" = "".
Proof. reflexivity. Qed.

Example filepath_Ext_dot_in_directory : filepath_Ext "v1.2/README" = "".
Proof. reflexivity. Qed.

Example isNotFoundError_ErrObjectNotFound :
  isNotFoundError MockStorage.ErrObjectNotFound = true.
Proof. reflexivity. Qed.

Example isNotFoundError_ErrStorageError :
  isNotFoundError MockStorage.ErrStorageError = false.
Proof. reflexivity. Qed.

Example isNotFoundError_ErrBucketNotFound :
  isNotFoundError MockStorage.ErrBucketNotFound = true.
Proof. reflexivity. Qed.

(** [TestMockCache_GetSet] *)
Example TestMockCache_GetSet :
  let cache0 := MockCache.NewMockCache in
  let testData := list_byte_of_string "test value" in
  let '(got1, cache1) := MockCache.Get cache0 "key1" in
  let '(err2, cache2) := MockCache.Set_ cache1 "key1" testData in
  let '(got3, cache3) := MockCache.Get cache2 "key1" in
  got1 = ([], false, None)
  ∧ err2 = None
  ∧ got3 = (testData, true, None)
  ∧ length (MockCache.GetCalls cache3) = 2
  ∧ length (MockCache.SetCalls cache3) = 1.
Proof. vm_compute. repeat split. Qed.

(** [TestMockStorage_GetSetObject] *)
Example TestMockStorage_GetSetObject :
  let storage0 := MockStorage.NewMockStorage in
  let testData := list_byte_of_string "test content" in
  let '(got1, storage1) := MockStorage.GetObject storage0 "key1" in
  let '(err2, storage2) := MockStorage.PutObject storage1 "key1" testData "text/plain" in
  let '(got3, storage3) := MockStorage.GetObject storage2 "key1" in
  got1.2 = Some MockStorage.ErrObjectNotFound
  ∧ err2 = None
  ∧ got3 = (testData, None)
  ∧ length (MockStorage.GetCalls storage3) = 2
  ∧ length (MockStorage.PutCalls storage3) = 1.
Proof. vm_compute. repeat split. Qed.

(** [TestMockStorage_HealthCheck] *)
Example TestMockStorage_HealthCheck :
  let '(err1, storage1) := MockStorage.HealthCheck MockStorage.NewMockStorage in
  err1 = None ∧ MockStorage.HealthCheckCalls storage1 = 1%Z.
Proof. vm_compute. repeat split. Qed.

(** An unreachable Redis server makes [RedisCache.Get] report a wrapped
    error and no hit. *)
Example RedisCache_Get_unreachable :
  (RedisCache.Get (RedisCache.mk downClient 300) "a.txt").1
  = ([], false,
     Some (fmt_Errorf_w "redis get error: " (errors_New "dial tcp: connection refused"))).
Proof. reflexivity. Qed.

(** ** Response recorder *)

Lemma writeJSON_fresh {C S : Type} (status : Z) (v : Response) (h : @FileHandler C S)
  (evs : list Event) (gs : list Goroutine) :
  writeJSON status v (mkState h NewRecorder evs gs)
  = (tt, mkState h (jsonWriter status v) evs gs).
Proof. reflexivity. Qed.

Lemma writeFileResponse_fresh {C S : Type} (T : string → string) (filename : string)
  (data : bytes) (h : @FileHandler C S) (evs : list Event) (gs : list Goroutine) :
  writeFileResponse T filename data (mkState h NewRecorder evs gs)
  = (tt, mkState h (fileWriter T filename data) evs gs).
Proof. reflexivity. Qed.

Lemma fileWriter_Content_Type (T : string → string) (filename : string) (data : bytes) :
  Header (fileWriter T filename data) !! "Content-Type" = Some [contentTypeOf T filename].
Proof.
  unfold fileWriter; cbn [Header].
  rewrite lookup_insert_ne by discriminate. apply lookup_singleton_eq.
Qed.

Lemma fileWriter_Content_Disposition (T : string → string) (filename : string)
  (data : bytes) :
  Header (fileWriter T filename data) !! "Content-Disposition"
  = Some ["inline; filename=" +:+ dquote +:+ filename +:+ dquote].
Proof. unfold fileWriter; cbn [Header]. apply lookup_insert_eq. Qed.

Lemma storageWriter_statusCode (T : string → string) (r : Request) (filename : string)
  (data : bytes) (err : option error) :
  statusCode (storageWriter T r filename data err) ∈
    [Some StatusOK; Some StatusGatewayTimeout; Some StatusNotFound;
     Some StatusInternalServerError].
Proof.
  unfold storageWriter. destruct err as [e|]; [|set_solver].
  destruct (decide _); [set_solver|]. destruct (isNotFoundError e); set_solver.
Qed.

(** ** The paths through [GetFile] *)

Section paths.
Context {C S : Type} `{!Cache C, !Storage S}.
Variable T : string → string.
Implicit Types (h : @FileHandler C S) (r : Request).

Lemma GetFile_bad_request h r :
  PathValue r "name" = "" →
  serve (GetFile T) h r
  = mkState h (jsonWriter StatusBadRequest (mkResponse false "filename is required" None))
            [] [].
Proof. intros Hname. unfold serve, GetFile. rewrite Hname. reflexivity. Qed.

Lemma GetFile_hit h r c d e c' :
  PathValue r "name" ≠ "" →
  cache h = Some c →
  cache_Get c (PathValue r "name") = ((d, true, e), c') →
  serve (GetFile T) h r
  = mkState (NewFileHandler (Some c') (storage h))
            (fileWriter T (PathValue r "name") d)
            (hitEvents (PathValue r "name") d e) [].
Proof.
  intros Hname Hc Hget. run_monad.
  destruct (String.eqb_spec (PathValue r "name") "") as [|_]; [done|].
  cbn. rewrite Hc, Hget. destruct e; reflexivity.
Qed.

Lemma GetFile_miss h r c d e c' sd se s' :
  PathValue r "name" ≠ "" →
  cache h = Some c →
  cache_Get c (PathValue r "name") = ((d, false, e), c') →
  GetObject (storage h) (PathValue r "name") = ((sd, se), s') →
  serve (GetFile T) h r
  = mkState (NewFileHandler (Some c') s')
            (storageWriter T r (PathValue r "name") sd se)
            (missEvents (PathValue r "name") d e ++ storageEvents (PathValue r "name") sd se)
            (match se with Some _ => [] | None => [WriteBack (PathValue r "name") sd] end).
Proof.
  intros Hname Hc Hget Hobj. run_monad.
  destruct (String.eqb_spec (PathValue r "name") "") as [|_]; [done|].
  cbn. rewrite Hc, Hget. unfold storageWriter.
  destruct e; cbn; rewrite Hobj; (destruct se as [e'|]; cbn; [|reflexivity]);
    (destruct (decide _); [reflexivity|]); destruct (isNotFoundError e'); reflexivity.
Qed.

Lemma GetFile_disabled h r sd se s' :
  PathValue r "name" ≠ "" →
  cache h = None →
  GetObject (storage h) (PathValue r "name") = ((sd, se), s') →
  serve (GetFile T) h r
  = mkState (NewFileHandler None s')
            (storageWriter T r (PathValue r "name") sd se)
            (disabledEvents (PathValue r "name") ++ storageEvents (PathValue r "name") sd se)
            [].
Proof.
  intros Hname Hc Hobj. run_monad.
  destruct (String.eqb_spec (PathValue r "name") "") as [|_]; [done|].
  cbn. rewrite Hc. cbn. rewrite Hobj. unfold storageWriter.
  destruct se as [e'|]; cbn; rewrite Hc; [|reflexivity].
  destruct (decide _); [reflexivity|]. destruct (isNotFoundError e'); reflexivity.
Qed.

End paths.

(** ** Case analysis on a run of [GetFile] *)

Ltac GetFile_cases T h r :=
  let Hname := fresh "Hname" in
  let Hcache := fresh "Hcache" in
  let Hget := fresh "Hget" in
  let Hobj := fresh "Hobj" in
  let c := fresh "c" in
  let cd := fresh "cd" in
  let cf := fresh "cf" in
  let ce := fresh "ce" in
  let c' := fresh "c'" in
  let sd := fresh "sd" in
  let se := fresh "se" in
  let s' := fresh "s'" in
  destruct (GetObject (storage h) (PathValue r "name")) as [[sd se] s'] eqn:Hobj;
  destruct (decide (PathValue r "name" = "")) as [Hname|Hname];
  [ rewrite (GetFile_bad_request T h r Hname) in *
  | destruct (cache h) as [c|] eqn:Hcache;
    [ destruct (cache_Get c (PathValue r "name")) as [[[cd cf] ce] c'] eqn:Hget;
      destruct cf;
      [ rewrite (GetFile_hit T h r c cd ce c' Hname Hcache Hget) in *
      | rewrite (GetFile_miss T h r c cd ce c' sd se s' Hname Hcache Hget Hobj) in * ]
    | rewrite (GetFile_disabled T h r sd se s' Hname Hcache Hobj) in * ] ].

Section claims.
Context {C S : Type} `{!Cache C, !Storage S}.
Variable T : string → string.
Implicit Types (h : @FileHandler C S) (r : Request).

(** C9.  For the empty filename [GetFile] answers 400 "filename is
    required" and does nothing else: no event at all is recorded (so no
    call reaches the Cache Port or the Storage Port), both ports are left
    as they were, and no goroutine is started. *)
Theorem GetFile_empty_name_rejected h r :
  PathValue r "name" = "" →
  responds (serve (GetFile T) h r) StatusBadRequest
    (JSON (mkResponse false "filename is required" None))
  ∧ events (serve (GetFile T) h r) = []
  ∧ handler (serve (GetFile T) h r) = h
  ∧ spawned (serve (GetFile T) h r) = [].
Proof.
  intros Hname. rewrite (GetFile_bad_request T h r Hname).
  repeat split.
Qed.

(** C1.  Whenever the lookup that [GetFile] makes in the configured cache
    returns found=true with bytes [d], the response is 200 with body [d]
    (shaped by [writeFileResponse] for the requested name), and the
    request makes no [GetObject] call: no such event is recorded and the
    storage object is left untouched. *)
Theorem GetFile_cache_hit_skips_storage h r k d e :
  EvCacheGet k d true e ∈ events (serve (GetFile T) h r) →
  k = PathValue r "name"
  ∧ responds (serve (GetFile T) h r) StatusOK (Raw d)
  ∧ w (serve (GetFile T) h r) = fileWriter T k d
  ∧ (∀ k' d' e', EvStorageGetObject k' d' e' ∉ events (serve (GetFile T) h r))
  ∧ storage (handler (serve (GetFile T) h r)) = storage h.
Proof.
  intros Hin. GetFile_cases T h r.
  - ev_inv Hin.
  - assert (k = PathValue r "name" ∧ d = cd) as [-> ->].
    { destruct ce; ev_inv Hin; by simplify_eq. }
    repeat split; try reflexivity.
    intros k' d' e' Hs. destruct ce; ev_inv Hs.
  - destruct ce, se; ev_inv Hin.
  - destruct se; ev_inv Hin.
Qed.

(** C3.  Whenever the [GetObject] call made by [GetFile] fails, the
    response is chosen in this order: 504 "Request timeout" if the
    request context reports [DeadlineExceeded]; otherwise 404 "File not
    found" if [isNotFoundError] holds of the error; otherwise 500 "Failed
    to retrieve file". *)
Theorem GetFile_storage_error_precedence h r k d e :
  EvStorageGetObject k d (Some e) ∈ events (serve (GetFile T) h r) →
  if decide (ctx_Err r = Some DeadlineExceeded) then
    responds (serve (GetFile T) h r) StatusGatewayTimeout
      (JSON (mkResponse false "Request timeout" None))
  else if isNotFoundError e then
    responds (serve (GetFile T) h r) StatusNotFound
      (JSON (mkResponse false "File not found" None))
  else
    responds (serve (GetFile T) h r) StatusInternalServerError
      (JSON (mkResponse false "Failed to retrieve file" None)).
Proof.
  intros Hin. GetFile_cases T h r.
  - ev_inv Hin.
  - destruct ce; ev_inv Hin.
  - assert (se = Some e) as ->.
    { destruct ce, se; ev_inv Hin; by simplify_eq. }
    unfold storageWriter, responds; cbn [w].
    destruct (decide _); [done|]. by destruct (isNotFoundError e).
  - assert (se = Some e) as ->.
    { destruct se; ev_inv Hin; by simplify_eq. }
    unfold storageWriter, responds; cbn [w].
    destruct (decide _); [done|]. by destruct (isNotFoundError e).
Qed.

End claims.

Section claims_health.
Context {C S : Type} `{!Cache C, !Storage S}.
Variable T : string → string.
Implicit Types (h : @FileHandler C S) (r : Request).

(** C4.  [Health] follows the storage health check alone.  If
    [HealthCheck] fails with [e], the answer is 503 with success=false,
    status "unhealthy" and r2 "unhealthy: " followed by the text of [e];
    if it succeeds, the answer is 200 with success=true, status "healthy"
    and r2 "healthy".  Both hold for every cache, configured or not and
    whatever its ping returns; the cache only decides the "redis" entry,
    which reads "unhealthy: ..." when the ping fails. *)
Theorem Health_storage_decides h r :
  ∃ m : gmap string string,
    m !! "redis" = Some (match cache h with
                         | None => "disabled"
                         | Some c => match (cache_Ping c).1 with
                                     | Some pe => "unhealthy: " +:+ Error pe
                                     | None => "healthy"
                                     end
                         end)
    ∧ match (HealthCheck (storage h)).1 with
      | Some e =>
          responds (serve Health h r) StatusServiceUnavailable
            (JSON (mkResponse false "Service is unhealthy" (Some m)))
          ∧ m !! "status" = Some "unhealthy"
          ∧ m !! "r2" = Some ("unhealthy: " +:+ Error e)
      | None =>
          responds (serve Health h r) StatusOK
            (JSON (mkResponse true "Service is healthy" (Some m)))
          ∧ m !! "status" = Some "healthy"
          ∧ m !! "r2" = Some "healthy"
      end.
Proof.
  run_monad. unfold responds. cbn -[insert singletonM lookup].
  destruct (cache h) as [c|]; cbn -[insert singletonM lookup];
    [destruct (cache_Ping c) as [[pe|] c']; cbn -[insert singletonM lookup]|];
    destruct (HealthCheck (storage h)) as [[e|] s']; cbn -[insert singletonM lookup];
    (eexists; split; [|split; [split; reflexivity|]]); by simplify_map_eq.
Qed.

(** C5.  With no cache configured ([h.cache] is nil): [GetFile] makes no
    call on a cache and its only port call, made for every non-empty
    name, is [GetObject] on storage for that name; [Health] reports
    "redis" as "disabled", makes no call on a cache, and its status and
    code are those that the storage health check alone dictates. *)
Theorem disabled_cache_transparent h r :
  cache h = None →
  List.filter isPortCall (events (serve (GetFile T) h r))
  = (if decide (PathValue r "name" = "") then []
     else [EvStorageGetObject (PathValue r "name")
             (GetObject (storage h) (PathValue r "name")).1.1
             (GetObject (storage h) (PathValue r "name")).1.2])
  ∧ cache (handler (serve (GetFile T) h r)) = None
  ∧ spawned (serve (GetFile T) h r) = []
  ∧ List.filter isCacheCall (events (serve Health h r)) = []
  ∧ ∃ (m : gmap string string) (ok : bool) (msg : string),
      body (w (serve Health h r)) = [JSON (mkResponse ok msg (Some m))]
      ∧ m !! "redis" = Some "disabled"
      ∧ ok = bool_decide ((HealthCheck (storage h)).1 = None)
      ∧ m !! "status" = Some (if ok then "healthy" else "unhealthy")
      ∧ statusCode (w (serve Health h r))
        = Some (if ok then StatusOK else StatusServiceUnavailable).
Proof.
  intros Hnil. split; [|split; [|split]].
  - GetFile_cases T h r; try congruence; [done|]. by destruct se.
  - GetFile_cases T h r; try congruence; done.
  - GetFile_cases T h r; try congruence; done.
  - run_monad. cbn -[insert singletonM lookup]. rewrite Hnil. cbn -[insert singletonM lookup].
    destruct (HealthCheck (storage h)) as [[e|] s']; cbn -[insert singletonM lookup];
      (split; [reflexivity|]); do 3 eexists;
      (split; [reflexivity|]); by simplify_map_eq.
Qed.

End claims_health.

(** ** Cache errors *)

(** Both cache implementations of the repository report an error together
    with found=false and no data. *)
Lemma RepoCache_Get_error {R : Type} `{!RedisClient R} (c : RepoCache R) (k : string)
  (d : bytes) (f : bool) (e : error) (c' : RepoCache R) :
  cache_Get c k = ((d, f, Some e), c') → f = false ∧ d = [].
Proof.
  destruct c as [c|m]; cbn.
  - unfold RedisCache.Get.
    destruct (client_Get_Bytes (RedisCache.client c) k) as [[cd [ce|]] cl];
      [destruct (decide _)|rewrite decide_False by discriminate];
      intros; by simplify_eq.
  - unfold MockCache.Get; cbn.
    destruct (MockCache.GetError m); [intros; by simplify_eq|].
    destruct (MockCache.data m !! k); intros; by simplify_eq.
Qed.

(** [GetFile] itself tests [found] without looking at [err]: a cache that
    returned bytes with found=true next to an error would be served as a
    hit, after the error is logged.  That a cache error always counts as a
    miss therefore rests on [RepoCache_Get_error]. *)
Remark GetFile_found_with_error {C S : Type} `{!Cache C, !Storage S} (T : string → string)
  (h : @FileHandler C S) (r : Request) (c c' : C) (d : bytes) (e : error) :
  PathValue r "name" ≠ "" →
  cache h = Some c →
  cache_Get c (PathValue r "name") = ((d, true, Some e), c') →
  responds (serve (GetFile T) h r) StatusOK (Raw d)
  ∧ EvLog LevelError "Cache error" [("filename", PathValue r "name"); ("error", Error e)]
      ∈ events (serve (GetFile T) h r).
Proof.
  intros Hname Hcache Hget. rewrite (GetFile_hit T h r c d (Some e) c' Hname Hcache Hget).
  split; [done|]. ev_in.
Qed.

Section claims_fallback.
Context {R S : Type} `{!RedisClient R, !Storage S}.
Variable T : string → string.
Implicit Types (h : @FileHandler (RepoCache R) S) (r : Request).

(** C2.  Whenever the [Get] call that [GetFile] makes on the configured
    cache (a [RedisCache] or a [MockCache]) returns a non-nil error [e],
    the error is logged ("Cache error") and the lookup counts as a miss:
    [GetObject] is called for the same name, and the response is the one
    storage dictates - 200 with the stored bytes on success, otherwise the
    504 / 404 / 500 answer chosen from the storage error - which is also,
    recorder for recorder, the response of a handler that has no cache at
    all.  The cache error appears nowhere in it. *)
Theorem GetFile_cache_error_falls_back h r k d f e :
  EvCacheGet k d f (Some e) ∈ events (serve (GetFile T) h r) →
  k = PathValue r "name"
  ∧ f = false
  ∧ EvLog LevelError "Cache error" [("filename", k); ("error", Error e)]
      ∈ events (serve (GetFile T) h r)
  ∧ (∃ sd se,
       (GetObject (storage h) k).1 = (sd, se)
       ∧ EvStorageGetObject k sd se ∈ events (serve (GetFile T) h r)
       ∧ storage (handler (serve (GetFile T) h r)) = (GetObject (storage h) k).2
       ∧ match se with
         | None => responds (serve (GetFile T) h r) StatusOK (Raw sd)
         | Some e' =>
             if decide (ctx_Err r = Some DeadlineExceeded) then
               responds (serve (GetFile T) h r) StatusGatewayTimeout
                 (JSON (mkResponse false "Request timeout" None))
             else if isNotFoundError e' then
               responds (serve (GetFile T) h r) StatusNotFound
                 (JSON (mkResponse false "File not found" None))
             else
               responds (serve (GetFile T) h r) StatusInternalServerError
                 (JSON (mkResponse false "Failed to retrieve file" None))
         end)
  ∧ w (serve (GetFile T) h r)
    = w (serve (GetFile T) (NewFileHandler None (storage h)) r).
Proof.
  intros Hin. GetFile_cases T h r.
  - ev_inv Hin.
  - exfalso. destruct ce as [e0|]; ev_inv Hin. simplify_eq.
    by destruct (RepoCache_Get_error _ _ _ _ _ _ Hget).
  - assert (k = PathValue r "name" ∧ ce = Some e) as [-> ->].
    { destruct ce, se; ev_inv Hin; by simplify_eq. }
    rewrite (GetFile_disabled T (NewFileHandler None (storage h)) r sd se s' Hname eq_refl Hobj).
    rewrite Hobj. split; [done|]. split; [by destruct se; ev_inv Hin; simplify_eq|].
    split; [ev_in|]. split; [|done].
    exists sd, se. split; [done|]. split; [ev_in|]. split; [done|].
    unfold storageWriter, responds; cbn [w]. destruct se as [e'|]; [|done].
    destruct (decide _); [done|]. by destruct (isNotFoundError e').
  - destruct se; ev_inv Hin.
Qed.

End claims_fallback.

Section claims_shaping.
Context {C S : Type} `{!Cache C, !Storage S}.
Variable T : string → string.
Implicit Types (h : @FileHandler C S) (r : Request).

(** [writeFileResponse] touches the response recorder only, and what it
    records does not depend on the rest of the state. *)
Lemma writeFileResponse_pure (filename : string) (data : bytes) (st : @State C S) :
  writeFileResponse T filename data st
  = (tt, mkState (handler st)
           (Write (Raw data)
              (WriteHeader StatusOK
                 (Header_Set "Content-Disposition"
                    ("inline; filename=" +:+ dquote +:+ filename +:+ dquote)
                    (Header_Set "Content-Type" (contentTypeOf T filename) (w st)))))
           (events st) (spawned st)).
Proof. reflexivity. Qed.

(** C8.  Every 200 response of [GetFile] carries some bytes [data] as its
    body and exactly two headers: Content-Type, which is the entry of the
    extension table for [filepath.Ext] of the requested name, or
    "application/octet-stream" when the table has none (unknown
    extension; also no extension, the table having no entry for the empty
    one); and Content-Disposition, which is [inline; filename="name"].
    The whole recorder is [fileWriter T name data]: a function of the name
    and the bytes, so two successful responses for the same name with the
    same body are equal. *)
Theorem file_response_shaping h r :
  statusCode (w (serve (GetFile T) h r)) = Some StatusOK →
  ∃ data : bytes,
    body (w (serve (GetFile T) h r)) = [Raw data]
    ∧ Header (w (serve (GetFile T) h r))
      = {[ "Content-Disposition" :=
             ["inline; filename=" +:+ dquote +:+ PathValue r "name" +:+ dquote];
           "Content-Type" :=
             [if String.eqb (T (filepath_Ext (PathValue r "name"))) ""
              then "application/octet-stream"
              else T (filepath_Ext (PathValue r "name"))] ]}
    ∧ (T (filepath_Ext (PathValue r "name")) = "" →
       Header (w (serve (GetFile T) h r)) !! "Content-Type"
       = Some ["application/octet-stream"])
    ∧ (filepath_Ext (PathValue r "name") = "" → T "" = "" →
       Header (w (serve (GetFile T) h r)) !! "Content-Type"
       = Some ["application/octet-stream"])
    ∧ Header (w (serve (GetFile T) h r)) !! "Content-Disposition"
      = Some ["inline; filename=" +:+ dquote +:+ PathValue r "name" +:+ dquote]
    ∧ w (serve (GetFile T) h r) = fileWriter T (PathValue r "name") data
    ∧ ∀ (C' S' : Type) (cache' : Cache C') (storage' : Storage S')
        (h' : @FileHandler C' S') (r' : Request),
        PathValue r' "name" = PathValue r "name" →
        statusCode (w (serve (GetFile T) h' r')) = Some StatusOK →
        body (w (serve (GetFile T) h' r')) = [Raw data] →
        w (serve (GetFile T) h' r') = w (serve (GetFile T) h r).
Proof.
  intros H200.
  assert (∃ data, w (serve (GetFile T) h r) = fileWriter T (PathValue r "name") data)
    as [data Hw].
  { GetFile_cases T h r; cbn [w] in *; [discriminate H200|by eexists|..];
      (destruct se as [e|]; [exfalso|by eexists]);
      unfold storageWriter in H200; destruct (decide _); try discriminate H200;
      destruct (isNotFoundError e); discriminate H200. }
  exists data. rewrite Hw.
  split; [done|]. split; [done|].
  split. { intros HT. rewrite fileWriter_Content_Type. unfold contentTypeOf. by rewrite HT. }
  split. { intros Hext HT. rewrite fileWriter_Content_Type. unfold contentTypeOf.
           by rewrite Hext, HT. }
  split; [apply fileWriter_Content_Disposition|]. split; [done|].
  intros C' S' cache' storage' h' r' Hname H200' Hbody.
  assert (∃ data', w (serve (GetFile T) h' r') = fileWriter T (PathValue r' "name") data')
    as [data' Hw'].
  { GetFile_cases T h' r'; cbn [w] in *; [discriminate H200'|by eexists|..];
      (destruct se as [e|]; [exfalso|by eexists]);
      unfold storageWriter in H200'; destruct (decide _); try discriminate H200';
      destruct (isNotFoundError e); discriminate H200'. }
  rewrite Hw' in Hbody |- *. cbn in Hbody. simplify_eq. by rewrite Hname.
Qed.

End claims_shaping.

(** ** The asynchronous write-back *)

Section write_back.
Context {C S : Type} `{!Cache C, !Storage S}.
Implicit Types (h : @FileHandler C S).

(** Running the one write-back goroutine that a storage fetch started. *)
Lemma settle_write_back (c : C) (s : S) (wr : ResponseWriter) (evs : list Event)
  (k : string) (b : bytes) :
  settle (mkState (NewFileHandler (Some c) s) wr evs [WriteBack k b])
  = mkState (NewFileHandler (Some (cache_Set c k b).2) s) wr
      (EvCacheSet k b (cache_Set c k b).1
       :: match (cache_Set c k b).1 with
          | Some e =>
              EvLog LevelError "Failed to cache file" [("filename", k); ("error", Error e)]
          | None => EvLog LevelInfo "Cached file" [("filename", k)]
          end
       :: [EvObserve (CacheOperationDuration "set")])
      [].
Proof.
  unfold settle. run_monad. cbn.
  destruct (cache_Set c k b) as [[e|] c']; reflexivity.
Qed.

End write_back.

Section claims_write_back.
Context {S : Type} `{!Storage S}.
Variable T : string → string.
Implicit Types (h : @FileHandler MockCache.t S) (r : Request).

(** C6.  Let the cache mock inject no error ([GetError] and [SetError]
    nil) and hold nothing under [k], and let [GetObject] for [k] succeed
    with bytes [b].  A [GetFile] for [k] then misses the cache, fetches
    [b] from storage, answers 200 with body [b] and starts exactly one
    goroutine, the write-back of [(k, b)].  Running that write-back calls
    [Set] with [(k, b)] and the call succeeds: the cache holds [b] under
    [k].  Any further [GetFile] for [k] is then a cache hit answered 200
    with body [b], with no [GetObject] call and the storage object
    untouched. *)
Theorem write_back_then_cache_hit h r m k b s' :
  PathValue r "name" = k →
  k ≠ "" →
  cache h = Some m →
  MockCache.GetError m = None →
  MockCache.SetError m = None →
  MockCache.data m !! k = None →
  GetObject (storage h) k = ((b, None), s') →
  EvCacheGet k [] false None ∈ events (serve (GetFile T) h r)
  ∧ EvStorageGetObject k b None ∈ events (serve (GetFile T) h r)
  ∧ responds (serve (GetFile T) h r) StatusOK (Raw b)
  ∧ spawned (serve (GetFile T) h r) = [WriteBack k b]
  ∧ EvCacheSet k b None ∈ events (settle (serve (GetFile T) h r))
  ∧ (∃ m', cache (handler (settle (serve (GetFile T) h r))) = Some m'
           ∧ MockCache.data m' !! k = Some b)
  ∧ ∀ r', PathValue r' "name" = k →
      responds (serve (GetFile T) (handler (settle (serve (GetFile T) h r))) r')
        StatusOK (Raw b)
      ∧ EvCacheGet k b true None
          ∈ events (serve (GetFile T) (handler (settle (serve (GetFile T) h r))) r')
      ∧ (∀ k' d' e',
           EvStorageGetObject k' d' e'
             ∉ events (serve (GetFile T) (handler (settle (serve (GetFile T) h r))) r'))
      ∧ storage (handler (serve (GetFile T) (handler (settle (serve (GetFile T) h r))) r'))
        = storage (handler (serve (GetFile T) h r)).
Proof.
  intros Hr Hk Hcache Hge Hse Hdata Hobj. subst k.
  assert (cache_Get m (PathValue r "name")
          = (([], false, None), (MockCache.Get m (PathValue r "name")).2)) as Hget.
  { cbn. unfold MockCache.Get; cbn. by rewrite Hge, Hdata. }
  rewrite (GetFile_miss T h r m [] None _ b None s' Hk Hcache Hget Hobj).
  rewrite settle_write_back.
  cbn [handler cache storage events spawned w cache_Set MockCache.MockCache_Cache].
  unfold MockCache.Set_, MockCache.Get; cbn. rewrite Hge, Hdata; cbn. rewrite Hse; cbn.
  split; [ev_in|]. split; [ev_in|]. split; [done|]. split; [done|].
  split; [apply elem_of_cons; by left|]. split.
  { eexists; split; [reflexivity|]. cbn. apply lookup_insert_eq. }
  intros r' Hr'.
  erewrite (GetFile_hit T _ r' _ b None).
  2: { by rewrite Hr'. }
  2: { reflexivity. }
  2: { cbn. unfold MockCache.Get; cbn. rewrite Hr', lookup_insert_eq. reflexivity. }
  rewrite Hr'. split; [done|]. split; [ev_in|]. split; [|done].
  intros k' d' e' Hin. ev_inv Hin.
Qed.

End claims_write_back.

(** C7 (amended).  Start from [NewMockCache()] and a [NewMockStorage()]
    holding "hello" under "a.txt".  [GET /files/a.txt] answers 200 with
    body "hello" and, as Content-Type, what the platform's extension table
    gives for ".txt", or "application/octet-stream" when the table has no
    entry for it; it leaves one entry in the storage mock's [GetCalls].
    After the write-back has run, the same request again answers 200
    "hello" with the same Content-Type, as a cache hit with no storage
    call: [GetCalls] still has its one entry. *)
Theorem scenario_a_txt (T' : string → string) (r1 r2 : Request) :
  PathValue r1 "name" = "a.txt" →
  PathValue r2 "name" = "a.txt" →
  let hello := list_byte_of_string "hello" in
  let h0 := NewFileHandler (Some MockCache.NewMockCache)
              (MockStorage.SetObject MockStorage.NewMockStorage "a.txt" hello) in
  let first := serve (GetFile T') h0 r1 in
  let second := serve (GetFile T') (handler (settle first)) r2 in
  let contentType :=
    if String.eqb (T' ".txt") "" then "application/octet-stream" else T' ".txt" in
  responds first StatusOK (Raw hello)
  ∧ Header (w first) !! "Content-Type" = Some [contentType]
  ∧ MockStorage.GetCalls (storage (handler first)) = ["a.txt"]
  ∧ responds second StatusOK (Raw hello)
  ∧ Header (w second) !! "Content-Type" = Some [contentType]
  ∧ EvCacheGet "a.txt" hello true None ∈ events second
  ∧ List.filter isStorageCall (events second) = []
  ∧ MockStorage.GetCalls (storage (handler second)) = ["a.txt"]
  ∧ length (MockStorage.GetCalls (storage (handler second))) = 1.
Proof.
  intros Hr1 Hr2 hello h0 first second contentType.
  assert (contentTypeOf T' "a.txt" = contentType) as Hct by reflexivity.
  assert (first
          = mkState (NewFileHandler
                       (Some (MockCache.Get MockCache.NewMockCache "a.txt").2)
                       (MockStorage.GetObject
                          (MockStorage.SetObject MockStorage.NewMockStorage "a.txt" hello)
                          "a.txt").2)
              (fileWriter T' "a.txt" hello)
              (missEvents "a.txt" [] None ++ storageEvents "a.txt" hello None)
              [WriteBack "a.txt" hello]) as Hfirst.
  { unfold first.
    rewrite (GetFile_miss T' h0 r1 MockCache.NewMockCache [] None
               (MockCache.Get MockCache.NewMockCache "a.txt").2 hello None
               (MockStorage.GetObject
                  (MockStorage.SetObject MockStorage.NewMockStorage "a.txt" hello)
                  "a.txt").2); rewrite ?Hr1; try done. }
  assert (second
          = mkState (NewFileHandler
                       (Some (MockCache.Get
                                (MockCache.Set_
                                   (MockCache.Get MockCache.NewMockCache "a.txt").2
                                   "a.txt" hello).2 "a.txt").2)
                       (MockStorage.GetObject
                          (MockStorage.SetObject MockStorage.NewMockStorage "a.txt" hello)
                          "a.txt").2)
              (fileWriter T' "a.txt" hello)
              (hitEvents "a.txt" hello None) []) as Hsecond.
  { unfold second. rewrite Hfirst, settle_write_back.
    erewrite (GetFile_hit T' _ r2 _ hello None); rewrite ?Hr2; try done. }
  rewrite Hfirst, Hsecond. unfold responds; cbn [w handler storage events].
  rewrite !fileWriter_Content_Type, Hct.
  repeat split; try reflexivity. ev_in.
Qed.

Section claims_empty_object.
Context {C : Type} `{!Cache C}.
Variable T : string → string.
Implicit Types (h : @FileHandler C MockStorage.t) (r : Request).

(** C10.  Let the storage mock hold the requested, non-empty key with
    zero-length content (and be set to fail no [GetObject]).  Then the
    response is never 404.  With no cache configured, or with a cache
    whose lookup does not report found, [GetObject] is called and succeeds
    with no bytes, and the response is 200 with an empty body; with a
    cache configured the write-back of the empty content under that key
    is the one goroutine started, and run it calls [Set] with the key and
    the empty content.  (A cache that reports found answers 200 with its
    own bytes.) *)
Theorem empty_object_is_served h r :
  MockStorage.objects (storage h) !! PathValue r "name" = Some [] →
  MockStorage.GetError (storage h) = None →
  PathValue r "name" ≠ "" →
  statusCode (w (serve (GetFile T) h r)) ≠ Some StatusNotFound
  ∧ match cache h with
    | None =>
        responds (serve (GetFile T) h r) StatusOK (Raw [])
        ∧ EvStorageGetObject (PathValue r "name") [] None
            ∈ events (serve (GetFile T) h r)
        ∧ spawned (serve (GetFile T) h r) = []
    | Some c =>
        match (cache_Get c (PathValue r "name")).1 with
        | (d, true, _) => responds (serve (GetFile T) h r) StatusOK (Raw d)
        | (_, false, _) =>
            responds (serve (GetFile T) h r) StatusOK (Raw [])
            ∧ EvStorageGetObject (PathValue r "name") [] None
                ∈ events (serve (GetFile T) h r)
            ∧ spawned (serve (GetFile T) h r) = [WriteBack (PathValue r "name") []]
            ∧ ∃ err, EvCacheSet (PathValue r "name") [] err
                       ∈ events (settle (serve (GetFile T) h r))
        end
    end.
Proof.
  intros Hobjs Herr Hname.
  assert (GetObject (storage h) (PathValue r "name")
          = (([], None), (MockStorage.GetObject (storage h) (PathValue r "name")).2))
    as Hfetch.
  { cbn. unfold MockStorage.GetObject; cbn. by rewrite Herr, Hobjs. }
  GetFile_cases T h r; simplify_eq; cbn [fst].
  - done.
  - split; [done|]. split; [done|]. split; [destruct ce; ev_in|]. split; [done|].
    rewrite settle_write_back. eexists. cbn [events]. apply elem_of_cons. by left.
  - split; [done|]. split; [done|]. split; [ev_in|done].
Qed.

End claims_empty_object.

(** ** Concrete runs *)

(** Storage empty: [GET /files/missing.txt] is answered 404 "File not
    found". *)
Example missing_file_is_404 :
  responds (serve (GetFile testTypeByExtension)
              (NewFileHandler (Some MockCache.NewMockCache) MockStorage.NewMockStorage)
              (fileRequest "missing.txt"))
    StatusNotFound (JSON (mkResponse false "File not found" None)).
Proof. vm_compute. split; reflexivity. Qed.

(** The same storage failure is answered 504 once the deadline has passed,
    whatever the error says. *)
Example deadline_exceeded_is_504 :
  responds (serve (GetFile testTypeByExtension)
              (NewFileHandler (Some MockCache.NewMockCache) MockStorage.NewMockStorage)
              (mkRequest {[ "name" := "missing.txt" ]} (Some DeadlineExceeded)))
    StatusGatewayTimeout (JSON (mkResponse false "Request timeout" None)).
Proof. vm_compute. split; reflexivity. Qed.

(** A cancelled request is not a timeout: the error text decides. *)
Example canceled_is_not_504 :
  responds (serve (GetFile testTypeByExtension) brokenStorageHandler
              (mkRequest {[ "name" := "a.txt" ]} (Some Canceled)))
    StatusInternalServerError (JSON (mkResponse false "Failed to retrieve file" None)).
Proof. vm_compute. split; reflexivity. Qed.

(** A failing cache ping leaves the service healthy. *)
Example Health_with_failing_ping :
  statusCode (w (serve Health unreachableRedisHandler (fileRequest ""))) = Some StatusOK.
Proof. reflexivity. Qed.

(** ** The claims on concrete ports *)

Lemma GetFile_empty_name_rejected_witness :
  responds (serve (GetFile testTypeByExtension) coldHandler (fileRequest ""))
    StatusBadRequest (JSON (mkResponse false "filename is required" None))
  ∧ events (serve (GetFile testTypeByExtension) coldHandler (fileRequest "")) = []
  ∧ handler (serve (GetFile testTypeByExtension) coldHandler (fileRequest "")) = coldHandler
  ∧ spawned (serve (GetFile testTypeByExtension) coldHandler (fileRequest "")) = [].
Proof.
  apply (GetFile_empty_name_rejected testTypeByExtension coldHandler (fileRequest "")).
  reflexivity.
Defined.

Lemma GetFile_cache_hit_skips_storage_witness :
  responds (serve (GetFile testTypeByExtension) warmHandler (fileRequest "a.txt"))
    StatusOK (Raw stale)
  ∧ storage (handler (serve (GetFile testTypeByExtension) warmHandler (fileRequest "a.txt")))
    = helloStorage.
Proof.
  pose proof (GetFile_cache_hit_skips_storage testTypeByExtension warmHandler
                (fileRequest "a.txt") "a.txt" stale None) as H.
  assert (EvCacheGet "a.txt" stale true None
          ∈ events (serve (GetFile testTypeByExtension) warmHandler (fileRequest "a.txt")))
    as Hin by (vm_compute; constructor).
  destruct (H Hin) as (_ & Hresp & _ & _ & Hsto). exact (conj Hresp Hsto).
Defined.

Lemma GetFile_cache_error_falls_back_witness :
  w (serve (GetFile testTypeByExtension) unreachableRedisHandler (fileRequest "a.txt"))
  = w (serve (GetFile testTypeByExtension) (NewFileHandler None helloStorage)
         (fileRequest "a.txt")).
Proof.
  destruct (GetFile_cache_error_falls_back testTypeByExtension unreachableRedisHandler
              (fileRequest "a.txt") "a.txt" [] false
              (fmt_Errorf_w "redis get error: "
                 (errors_New "dial tcp: connection refused")))
    as (_ & _ & _ & _ & Hsame).
  - vm_compute; constructor.
  - exact Hsame.
Defined.

Lemma GetFile_storage_error_precedence_witness :
  responds (serve (GetFile testTypeByExtension) brokenStorageHandler (fileRequest "a.txt"))
    StatusInternalServerError (JSON (mkResponse false "Failed to retrieve file" None)).
Proof.
  apply (GetFile_storage_error_precedence testTypeByExtension brokenStorageHandler
           (fileRequest "a.txt") "a.txt" [] MockStorage.ErrStorageError).
  vm_compute. repeat constructor.
Defined.

Lemma disabled_cache_transparent_witness :
  List.filter isPortCall
    (events (serve (GetFile testTypeByExtension) uncachedHandler (fileRequest "a.txt")))
  = [EvStorageGetObject "a.txt" hello None].
Proof.
  destruct (disabled_cache_transparent testTypeByExtension uncachedHandler
              (fileRequest "a.txt")) as [Hcalls _]; [reflexivity|].
  exact Hcalls.
Defined.

Lemma write_back_then_cache_hit_witness :
  EvCacheSet "a.txt" hello None
    ∈ events (settle (serve (GetFile testTypeByExtension) coldHandler (fileRequest "a.txt")))
  ∧ responds
      (serve (GetFile testTypeByExtension)
         (handler (settle (serve (GetFile testTypeByExtension) coldHandler
                             (fileRequest "a.txt"))))
         (fileRequest "a.txt"))
      StatusOK (Raw hello)
  ∧ ∀ k' d' e',
      EvStorageGetObject k' d' e'
        ∉ events
            (serve (GetFile testTypeByExtension)
               (handler (settle (serve (GetFile testTypeByExtension) coldHandler
                                   (fileRequest "a.txt"))))
               (fileRequest "a.txt")).
Proof.
  destruct (write_back_then_cache_hit testTypeByExtension coldHandler
              (fileRequest "a.txt") MockCache.NewMockCache "a.txt" hello
              (MockStorage.GetObject helloStorage "a.txt").2)
    as (_ & _ & _ & _ & Hset & _ & Hnext); [reflexivity|discriminate|reflexivity..|].
  destruct (Hnext (fileRequest "a.txt") eq_refl) as (Hresp & _ & Hnone & _).
  exact (conj Hset (conj Hresp Hnone)).
Defined.

(** C7, as stated, fails on the code: with the extension table of the
    runtime image (Go's built-in table, which has no entry for ".txt") the
    Content-Type of the response for "a.txt" is "application/octet-stream",
    not "text/plain". *)
Lemma scenario_a_txt_not_text_plain :
  responds (serve (GetFile (goBuiltinTypeByExtension id)) coldHandler (fileRequest "a.txt"))
    StatusOK (Raw hello)
  ∧ Header (w (serve (GetFile (goBuiltinTypeByExtension id)) coldHandler
                 (fileRequest "a.txt"))) !! "Content-Type"
    = Some ["application/octet-stream"]
  ∧ Header (w (serve (GetFile (goBuiltinTypeByExtension id)) coldHandler
                 (fileRequest "a.txt"))) !! "Content-Type"
    ≠ Some ["text/plain"].
Proof.
  assert (serve (GetFile (goBuiltinTypeByExtension id)) coldHandler (fileRequest "a.txt")
          = mkState (NewFileHandler (Some (MockCache.Get MockCache.NewMockCache "a.txt").2)
                       (MockStorage.GetObject helloStorage "a.txt").2)
              (fileWriter (goBuiltinTypeByExtension id) "a.txt" hello)
              (missEvents "a.txt" [] None ++ storageEvents "a.txt" hello None)
              [WriteBack "a.txt" hello]) as ->.
  { by rewrite (GetFile_miss (goBuiltinTypeByExtension id) coldHandler (fileRequest "a.txt")
                  MockCache.NewMockCache [] None
                  (MockCache.Get MockCache.NewMockCache "a.txt").2 hello None
                  (MockStorage.GetObject helloStorage "a.txt").2). }
  cbn [w]. rewrite fileWriter_Content_Type.
  change (contentTypeOf (goBuiltinTypeByExtension id) "a.txt")
    with "application/octet-stream".
  split; [done|]. split; [done|]. discriminate.
Qed.

Lemma scenario_a_txt_witness :
  responds (serve (GetFile (goBuiltinTypeByExtension id)) coldHandler (fileRequest "a.txt"))
    StatusOK (Raw hello)
  ∧ Header (w (serve (GetFile (goBuiltinTypeByExtension id)) coldHandler
                 (fileRequest "a.txt"))) !! "Content-Type"
    = Some ["application/octet-stream"]
  ∧ responds
      (serve (GetFile (goBuiltinTypeByExtension id))
         (handler (settle (serve (GetFile (goBuiltinTypeByExtension id)) coldHandler
                             (fileRequest "a.txt"))))
         (fileRequest "a.txt"))
      StatusOK (Raw hello)
  ∧ length
      (MockStorage.GetCalls
         (storage
            (handler
               (serve (GetFile (goBuiltinTypeByExtension id))
                  (handler (settle (serve (GetFile (goBuiltinTypeByExtension id))
                                      coldHandler (fileRequest "a.txt"))))
                  (fileRequest "a.txt")))))
    = 1.
Proof.
  pose proof (scenario_a_txt (goBuiltinTypeByExtension id) (fileRequest "a.txt")
                (fileRequest "a.txt") eq_refl eq_refl) as H.
  cbn zeta in H. destruct H as (H1 & H2 & _ & H4 & _ & _ & _ & _ & H9).
  exact (conj H1 (conj H2 (conj H4 H9))).
Defined.

Lemma file_response_shaping_witness :
  ∃ data : bytes,
    body (w (serve (GetFile testTypeByExtension) coldHandler (fileRequest "a.txt")))
    = [Raw data].
Proof.
  destruct (file_response_shaping testTypeByExtension coldHandler (fileRequest "a.txt"))
    as (data & Hbody & _); [reflexivity|].
  exists data. exact Hbody.
Defined.

Lemma empty_object_is_served_witness :
  responds (serve (GetFile testTypeByExtension) emptyObjectHandler (fileRequest "empty.bin"))
    StatusOK (Raw [])
  ∧ EvStorageGetObject "empty.bin" [] None
      ∈ events (serve (GetFile testTypeByExtension) emptyObjectHandler
                  (fileRequest "empty.bin"))
  ∧ spawned (serve (GetFile testTypeByExtension) emptyObjectHandler
               (fileRequest "empty.bin"))
    = [WriteBack "empty.bin" []]
  ∧ ∃ err, EvCacheSet "empty.bin" [] err
             ∈ events (settle (serve (GetFile testTypeByExtension) emptyObjectHandler
                                 (fileRequest "empty.bin"))).
Proof.
  destruct (empty_object_is_served testTypeByExtension emptyObjectHandler
              (fileRequest "empty.bin")) as [_ Hserved];
    [reflexivity|reflexivity|discriminate|].
  exact Hserved.
Defined.

(** * Further properties of the handlers *)

(** Settle an equivalence between two memberships in a concrete list of
    events: each side either holds outright or is contradictory. *)
Ltac ev_iff :=
  let Hin := fresh "Hin" in
  first
    [ intros Hin; repeat (destruct Hin as [? Hin]);
      first [ by (exfalso; ev_inv Hin) | by (repeat eexists; repeat constructor) ]
    | intros Hin; first [ by (exfalso; ev_inv Hin) | by (repeat eexists; repeat constructor) ] ].

Section handler_protocol.
Context {C S : Type} `{!Cache C, !Storage S}.
Variable T : string → string.
Implicit Types (h : @FileHandler C S) (r : Request).

(** X1.  Whatever the ports do, [GetFile] writes one of two kinds of
    response: the file response for the requested name (status 200), or a
    JSON envelope with success=false, no data and status 400, 404, 500 or
    504; with the envelope it starts no goroutine. *)
Theorem GetFile_response_shape h r :
  (∃ data, w (serve (GetFile T) h r) = fileWriter T (PathValue r "name") data)
  ∨ (∃ code msg,
       code ∈ [StatusBadRequest; StatusNotFound; StatusInternalServerError;
               StatusGatewayTimeout]
       ∧ w (serve (GetFile T) h r) = jsonWriter code (mkResponse false msg None)
       ∧ spawned (serve (GetFile T) h r) = []).
Proof.
  assert (∀ sd se (gs : list Goroutine),
             (∃ data, storageWriter T r (PathValue r "name") sd se
                      = fileWriter T (PathValue r "name") data)
             ∨ (∃ code msg,
                  code ∈ [StatusBadRequest; StatusNotFound; StatusInternalServerError;
                          StatusGatewayTimeout]
                  ∧ storageWriter T r (PathValue r "name") sd se
                    = jsonWriter code (mkResponse false msg None)
                  ∧ match se with Some _ => [] | None => gs end = [])) as Hsto.
  { intros sd [e|] gs; unfold storageWriter; [right|left; by eexists].
    destruct (decide _); [|destruct (isNotFoundError e)];
      do 2 eexists; (split; [|split; reflexivity]); set_solver. }
  GetFile_cases T h r; cbn [w spawned].
  - right. do 2 eexists. split; [|split; reflexivity]. set_solver.
  - left. by eexists.
  - apply Hsto.
  - destruct (Hsto sd se []) as [?|(code & msg & ? & ? & _)]; [by left|].
    right. by exists code, msg.
Qed.

(** X2.  A write-back is started only by a successful storage fetch: if
    [GetFile] starts a goroutine [g], then a cache is configured, [g] is the
    only goroutine started, it carries the requested name and exactly the
    bytes that [GetObject] returned without error, and those bytes are the
    body of the 200 response. *)
Theorem write_back_only_after_storage_success h r g :
  g ∈ spawned (serve (GetFile T) h r) →
  is_Some (cache h)
  ∧ spawned (serve (GetFile T) h r) = [g]
  ∧ ∃ data,
      g = WriteBack (PathValue r "name") data
      ∧ EvStorageGetObject (PathValue r "name") data None
          ∈ events (serve (GetFile T) h r)
      ∧ responds (serve (GetFile T) h r) StatusOK (Raw data).
Proof.
  intros Hg. GetFile_cases T h r; cbn [spawned] in Hg; try by apply elem_of_nil in Hg.
  destruct se as [e|]; [by apply elem_of_nil in Hg|].
  apply list_elem_of_singleton in Hg as ->.
  split; [done|]. split; [done|]. exists sd. split; [done|]. split; [ev_in|done].
Qed.

(** X3.  The port calls of one [GetFile] are fixed by the name and the
    cache's answer, in the cache-aside order: none for the empty name;
    otherwise, when a cache is configured, one [Get] for the requested
    name, followed by one [GetObject] for the same name exactly when the
    lookup did not report found; without a cache, one [GetObject] for the
    name.  [Set], [Ping] and [HealthCheck] are never called while the
    request is served. *)
Theorem GetFile_port_call_order h r :
  List.filter isPortCall (events (serve (GetFile T) h r))
  = if decide (PathValue r "name" = "") then []
    else
      let fetch :=
        EvStorageGetObject (PathValue r "name")
          (GetObject (storage h) (PathValue r "name")).1.1
          (GetObject (storage h) (PathValue r "name")).1.2 in
      match cache h with
      | None => [fetch]
      | Some c =>
          EvCacheGet (PathValue r "name")
            (cache_Get c (PathValue r "name")).1.1.1
            (cache_Get c (PathValue r "name")).1.1.2
            (cache_Get c (PathValue r "name")).1.2
          :: (if (cache_Get c (PathValue r "name")).1.1.2 then [] else [fetch])
      end.
Proof.
  GetFile_cases T h r; cbn [events fst snd]; ev_unfold.
  - done.
  - by destruct ce.
  - by destruct ce, se.
  - by destruct se.
Qed.

(** X4.  The counters agree with the port calls of the request: the hit
    counter is incremented exactly when the lookup reported found, the miss
    counter exactly when it did not (a failed lookup included), and the
    storage counter is incremented with status "success" or "error"
    exactly when [GetObject] returned without or with an error. *)
Theorem GetFile_counters_match_calls h r :
  (EvInc CacheHitsTotal ∈ events (serve (GetFile T) h r)
   ↔ ∃ k d e, EvCacheGet k d true e ∈ events (serve (GetFile T) h r))
  ∧ (EvInc CacheMissesTotal ∈ events (serve (GetFile T) h r)
     ↔ ∃ k d e, EvCacheGet k d false e ∈ events (serve (GetFile T) h r))
  ∧ (EvInc (R2RequestsTotal "get" "success") ∈ events (serve (GetFile T) h r)
     ↔ ∃ k d, EvStorageGetObject k d None ∈ events (serve (GetFile T) h r))
  ∧ (EvInc (R2RequestsTotal "get" "error") ∈ events (serve (GetFile T) h r)
     ↔ ∃ k d e, EvStorageGetObject k d (Some e) ∈ events (serve (GetFile T) h r)).
Proof.
  GetFile_cases T h r; cbn [events]; ev_unfold;
    try destruct ce; try destruct se; cbn [app];
    repeat split; ev_iff.
Qed.

End handler_protocol.

Section health_protocol.
Context {C S : Type} `{!Cache C, !Storage S}.
Implicit Types (h : @FileHandler C S) (r : Request).

(** X5.  [Health] pings the cache once, if there is one, and then checks
    storage once; it calls nothing else on the ports and starts no
    goroutine.  Its answer is always a JSON envelope whose data has exactly
    the three keys "status", "redis" and "r2", and afterwards each port is
    in the state its own call left it in. *)
Theorem Health_port_calls h r :
  List.filter isPortCall (events (serve Health h r))
  = (match cache h with
     | Some c => [EvCachePing (cache_Ping c).1]
     | None => []
     end ++ [EvStorageHealthCheck (HealthCheck (storage h)).1])%list
  ∧ spawned (serve Health h r) = []
  ∧ handler (serve Health h r)
    = NewFileHandler ((λ c, (cache_Ping c).2) <$> cache h) (HealthCheck (storage h)).2
  ∧ Header (w (serve Health h r)) = {[ "Content-Type" := ["application/json"] ]}
  ∧ ∃ (ok : bool) (msg : string) (m : gmap string string),
      body (w (serve Health h r)) = [JSON (mkResponse ok msg (Some m))]
      ∧ dom m = ({[ "status"; "redis"; "r2" ]} : gset string).
Proof.
  run_monad. cbn -[insert singletonM lookup dom].
  destruct (cache h) as [c|] eqn:Hc; cbn -[insert singletonM lookup dom];
    [destruct (cache_Ping c) as [[pe|] c']; cbn -[insert singletonM lookup dom]|];
    destruct (HealthCheck (storage h)) as [[e|] s']; cbn -[insert singletonM lookup dom];
    rewrite ?Hc;
    (do 4 (split; [reflexivity|])); do 3 eexists; (split; [reflexivity|]);
    rewrite ?dom_insert_L, dom_singleton_L; set_solver.
Qed.

(** Running one write-back against the current state. *)
Lemma run_goroutine_WriteBack (k : string) (b : bytes) (acc : @State C S) :
  (run_goroutine (WriteBack k b) acc).2
  = match cache (handler acc) with
    | Some c =>
        mkState (NewFileHandler (Some (cache_Set c k b).2) (storage (handler acc)))
          (w acc)
          (events acc
           ++ [EvCacheSet k b (cache_Set c k b).1;
               match (cache_Set c k b).1 with
               | Some e =>
                   EvLog LevelError "Failed to cache file"
                     [("filename", k); ("error", Error e)]
               | None => EvLog LevelInfo "Cached file" [("filename", k)]
               end;
               EvObserve (CacheOperationDuration "set")])
          (spawned acc)
    | None => acc
    end.
Proof.
  run_monad. cbn. destruct (cache (handler acc)) as [c|]; [|by destruct acc].
  destruct (cache_Set c k b) as [[e|] c']; cbn; by rewrite <-!app_assoc.
Qed.

Lemma settle_loop_frame (gs : list Goroutine) (acc : @State C S) :
  let res := foldl (λ acc g, (run_goroutine g acc).2) acc gs in
  w res = w acc
  ∧ storage (handler res) = storage (handler acc)
  ∧ spawned res = spawned acc
  ∧ (is_Some (cache (handler res)) ↔ is_Some (cache (handler acc)))
  ∧ ∃ more,
      events res = (events acc ++ more)%list
      ∧ omap setCallOf more = match cache (handler acc) with Some _ => gs | None => [] end
      ∧ Forall (λ ev, isStorageCall ev = false
                      ∧ (isCacheCall ev = true → is_Some (setCallOf ev))) more
      ∧ ∀ k b e, EvCacheSet k b (Some e) ∈ more →
                 EvLog LevelError "Failed to cache file"
                   [("filename", k); ("error", Error e)] ∈ more.
Proof.
  revert acc. induction gs as [|[k b] gs IH]; intros acc; cbn [foldl].
  - do 4 (split; [done|]). exists []. rewrite app_nil_r.
    split; [done|]. split; [by destruct (cache _)|]. split; [done|].
    by intros ??? ?%elem_of_nil.
  - specialize (IH (run_goroutine (WriteBack k b) acc).2).
    rewrite run_goroutine_WriteBack in IH |- *.
    destruct (cache (handler acc)) as [c|] eqn:Hc.
    + cbn [w handler storage spawned events cache] in IH.
      destruct IH as (Hw & Hs & Hsp & Hca & more & Hev & Hcalls & Hall & Hlog).
      do 3 (split; [done|]). split; [rewrite Hca; split; eauto|].
      eexists (_ :: _ :: _ :: more).
      rewrite Hev, <-app_assoc. split; [reflexivity|].
      split. { cbn. rewrite Hcalls. by destruct (cache_Set c k b).1. } split.
      * repeat (apply Forall_cons; split); [done| |done|done].
        by destruct (cache_Set c k b).1.
      * intros k' b' e'. rewrite !elem_of_cons. intros [Heq|[Heq|[Heq|Hin]]].
        -- injection Heq as -> -> Heq. rewrite <-Heq. right; by left.
        -- by destruct (cache_Set c k b).1.
        -- done.
        -- do 3 right. by eapply Hlog.
    + rewrite Hc in IH.
      destruct IH as (Hw & Hs & Hsp & Hca & more & Hev & Hcalls & Hall & Hlog).
      do 4 (split; [done|]). by exists more.
Qed.

(** X6.  The write-back is fire-and-forget.  Running the queued goroutines
    leaves the response and the storage object as they are; with a cache
    configured it makes exactly one [Set] call per queued write-back, with
    that write-back's name and bytes and in the order queued (none without
    a cache), and no other port call; and every [Set] that fails is logged
    as "Failed to cache file". *)
Theorem settle_fire_and_forget (st : @State C S) :
  w (settle st) = w st
  ∧ storage (handler (settle st)) = storage (handler st)
  ∧ spawned (settle st) = []
  ∧ omap setCallOf (events (settle st)) = match cache (handler st) with Some _ => spawned st | None => [] end
  ∧ Forall (λ ev, isStorageCall ev = false
                  ∧ (isCacheCall ev = true → is_Some (setCallOf ev)))
      (events (settle st))
  ∧ ∀ k b e, EvCacheSet k b (Some e) ∈ events (settle st) →
             EvLog LevelError "Failed to cache file" [("filename", k); ("error", Error e)]
               ∈ events (settle st).
Proof.
  unfold settle.
  destruct (settle_loop_frame (spawned st) (mkState (handler st) (w st) [] []))
    as (Hw & Hs & Hsp & _ & more & Hev & Hcalls & Hall & Hlog).
  cbn [w handler storage spawned events app] in *. rewrite Hev.
  by repeat split.
Qed.

End health_protocol.

(** * Error classification *)

Lemma string_app_assoc (a b c : string) : (a +:+ b) +:+ c = a +:+ (b +:+ c).
Proof.
  induction a as [|ch a IH]; [done|].
  change (String ch ((a +:+ b) +:+ c) = String ch (a +:+ b +:+ c)). by rewrite IH.
Qed.

Lemma string_app_cons (ch : ascii) (a b : string) :
  String ch a +:+ b = String ch (a +:+ b).
Proof. reflexivity. Qed.

Lemma string_app_nil (a : string) : "" +:+ a = a.
Proof. reflexivity. Qed.

Lemma String_prefix_spec (sub s : string) :
  String.prefix sub s = true ↔ ∃ post, s = sub +:+ post.
Proof.
  revert s. induction sub as [|c sub IH]; intros [|c' s]; simpl String.prefix.
  - split; [by exists ""|done].
  - split; [by exists (String c' s)|done].
  - split; [done|by intros [? ?]].
  - destruct (Ascii.ascii_dec c c') as [->|Hne].
    + rewrite IH. split; intros [post Hpost]; exists post;
        rewrite string_app_cons in *; congruence.
    + split; [done|]. intros [post Hpost]. rewrite string_app_cons in Hpost. congruence.
Qed.

Lemma strings_Contains_spec (s sub : string) :
  strings_Contains s sub = true ↔ ∃ pre post, s = pre +:+ sub +:+ post.
Proof.
  split.
  - induction s as [|c s IH]; cbn [strings_Contains]; rewrite orb_true_iff.
    + intros [Hp|?]; [|done]. apply String_prefix_spec in Hp as [post ->].
      by exists "", post.
    + intros [Hp|Hc].
      * apply String_prefix_spec in Hp as [post ->]. by exists "", post.
      * destruct (IH Hc) as (pre & post & ->). by exists (String c pre), post.
  - intros (pre & post & ->). induction pre as [|c pre IH].
    + assert (String.prefix sub (sub +:+ post) = true) as Hp
        by (apply String_prefix_spec; by exists post).
      rewrite string_app_nil. destruct (sub +:+ post); cbn [strings_Contains]; by rewrite Hp.
    + rewrite string_app_cons. cbn [strings_Contains]. rewrite IH. apply orb_true_r.
Qed.

Lemma strings_Contains_prepend (p s sub : string) :
  strings_Contains s sub = true → strings_Contains (p +:+ s) sub = true.
Proof.
  rewrite !strings_Contains_spec. intros (pre & post & ->).
  exists (p +:+ pre), post. by rewrite string_app_assoc.
Qed.

(** X7.  [isNotFoundError] classifies an error as not-found exactly when
    its text has "NoSuchKey" or "not found" somewhere inside it, letter
    case included; nothing else about the error is looked at. *)
Theorem isNotFoundError_iff_text (err : error) :
  isNotFoundError err = true
  ↔ ∃ pre post, Error err = pre +:+ "NoSuchKey" +:+ post
                ∨ Error err = pre +:+ "not found" +:+ post.
Proof.
  unfold isNotFoundError. rewrite orb_true_iff, !strings_Contains_spec.
  split.
  - intros [(pre & post & H)|(pre & post & H)]; exists pre, post; [by left|by right].
  - intros (pre & post & [H|H]); [left|right]; by exists pre, post.
Qed.

(** X8.  Wrapping keeps the classification: an error that is classified as
    not-found is still classified as not-found after any number of
    [fmt.Errorf("...: %w", err)] wrappings, so a wrapped "NoSuchKey" is
    answered 404 like the bare one. *)
Theorem isNotFoundError_wrapped (prefixes : list string) (err : error) :
  isNotFoundError err = true →
  isNotFoundError (foldr fmt_Errorf_w err prefixes) = true.
Proof.
  intros Herr. induction prefixes as [|p ps IH]; [done|]. cbn [foldr].
  unfold isNotFoundError in *. cbn [Error].
  apply orb_true_iff in IH as [IH|IH]; apply orb_true_iff; [left|right];
    by apply strings_Contains_prepend.
Qed.

(** * The mocks and the Redis cache *)

(** X9.  [MockCache]: with no error injected, a [Get] that follows a [Set]
    of the same key returns the bytes just set, with found=true; the answer
    for every other key is what it was before the [Set]. *)
Theorem MockCache_Set_then_Get (m : MockCache.t) (k : string) (d : bytes) :
  MockCache.SetError m = None →
  MockCache.GetError m = None →
  (MockCache.Set_ m k d).1 = None
  ∧ (MockCache.Get (MockCache.Set_ m k d).2 k).1 = (d, true, None)
  ∧ ∀ k', k' ≠ k →
      (MockCache.Get (MockCache.Set_ m k d).2 k').1 = (MockCache.Get m k').1.
Proof.
  intros Hset Hget. unfold MockCache.Set_, MockCache.Get; cbn. rewrite Hset; cbn.
  rewrite Hget, lookup_insert_eq. split; [done|]. split; [done|].
  intros k' Hne. rewrite lookup_insert_ne by done.
  by destruct (MockCache.data m !! k').
Qed.

(** X10.  [MockCache]: a [Set] that fails with the injected error stores
    nothing - every later [Get] answers as it would have before - but the
    call is still recorded in [SetCalls]. *)
Theorem MockCache_failed_Set (m : MockCache.t) (k : string) (d : bytes) (e : error) :
  MockCache.SetError m = Some e →
  (MockCache.Set_ m k d).1 = Some e
  ∧ MockCache.SetCalls (MockCache.Set_ m k d).2
    = (MockCache.SetCalls m ++ [MockCache.mkSetCall k d])%list
  ∧ ∀ k', (MockCache.Get (MockCache.Set_ m k d).2 k').1 = (MockCache.Get m k').1.
Proof.
  intros Hset. unfold MockCache.Set_, MockCache.Get; cbn. rewrite Hset; cbn.
  split; [done|]. split; [done|]. intros k'.
  destruct (MockCache.GetError m); [done|]. by destruct (MockCache.data m !! k').
Qed.

(** X11.  [MockCache.Get] only observes.  After any sequence of [Get]
    calls the mock is what it was, field for field (stored data, the four
    injected errors, the other call logs), except that [GetCalls] has
    grown by exactly the keys asked for, in order, failed calls included;
    so every [Get] answers what it would have answered on the initial
    state, however many lookups came before.  The answer reports found
    exactly when no error is injected and the key is stored, and then
    carries the stored bytes. *)
Theorem MockCache_Get_observes (m : MockCache.t) (ks : list string) :
  foldl (λ m k, (MockCache.Get m k).2) m ks
  = MockCache.mk (MockCache.data m) (MockCache.GetError m) (MockCache.SetError m)
      (MockCache.PingError m) (MockCache.CloseError m)
      (MockCache.GetCalls m ++ ks)
      (MockCache.SetCalls m) (MockCache.PingCalls m) (MockCache.CloseCalls m)
  ∧ ∀ k,
      (MockCache.Get (foldl (λ m k, (MockCache.Get m k).2) m ks) k).1
      = (MockCache.Get m k).1
      ∧ (MockCache.Get m k).1.2 = MockCache.GetError m
      ∧ ((MockCache.Get m k).1.1.2 = false → (MockCache.Get m k).1.1.1 = [])
      ∧ ∀ d, (MockCache.Get m k).1.1 = (d, true)
             ↔ MockCache.GetError m = None ∧ MockCache.data m !! k = Some d.
Proof.
  assert (foldl (λ m k, (MockCache.Get m k).2) m ks
          = MockCache.mk (MockCache.data m) (MockCache.GetError m) (MockCache.SetError m)
              (MockCache.PingError m) (MockCache.CloseError m)
              (MockCache.GetCalls m ++ ks)
              (MockCache.SetCalls m) (MockCache.PingCalls m) (MockCache.CloseCalls m))
    as Hfold.
  { revert m. induction ks as [|k ks IH]; intros m; cbn [foldl].
    - destruct m; cbn. by rewrite app_nil_r.
    - rewrite IH. unfold MockCache.Get; cbn.
      destruct (MockCache.GetError m); [|destruct (MockCache.data m !! k)];
        cbn; by rewrite <-app_assoc. }
  split; [exact Hfold|]. intros k. rewrite Hfold.
  unfold MockCache.Get; cbn.
  destruct (MockCache.GetError m) as [e|]; cbn;
    [|destruct (MockCache.data m !! k) as [d0|]; cbn];
    (do 2 (split; [done|])); (split; [done|]);
    intros d; (split; [intros ?|intros [??]]); by simplify_eq.
Qed.

(** X12.  [MockStorage]: with no error injected, [GetObject] after
    [PutObject] of the same key returns the content just put and
    [ObjectExists] reports it; every other key answers as before. *)
Theorem MockStorage_Put_then_Get (m : MockStorage.t) (k ct : string) (d : bytes) :
  MockStorage.PutError m = None →
  MockStorage.GetError m = None →
  MockStorage.ExistsError m = None →
  (MockStorage.PutObject m k d ct).1 = None
  ∧ (MockStorage.GetObject (MockStorage.PutObject m k d ct).2 k).1 = (d, None)
  ∧ (MockStorage.ObjectExists (MockStorage.PutObject m k d ct).2 k).1 = (true, None)
  ∧ ∀ k', k' ≠ k →
      (MockStorage.GetObject (MockStorage.PutObject m k d ct).2 k').1
      = (MockStorage.GetObject m k').1.
Proof.
  intros Hput Hget Hex.
  unfold MockStorage.PutObject, MockStorage.GetObject, MockStorage.ObjectExists; cbn.
  rewrite Hput; cbn. rewrite Hget, Hex, lookup_insert_eq.
  split; [done|]. split; [done|]. split.
  { by rewrite bool_decide_eq_true_2. }
  intros k' Hne. rewrite lookup_insert_ne by done.
  by destruct (MockStorage.objects m !! k').
Qed.

(** X13.  [MockStorage]: with no error injected, [DeleteObject] succeeds
    whether or not the key is stored; afterwards [GetObject] for that key
    fails with [ErrObjectNotFound], an error that [isNotFoundError]
    classifies as not-found, and [ObjectExists] reports false; every other
    key answers as before. *)
Theorem MockStorage_Delete_then_missing (m : MockStorage.t) (k : string) :
  MockStorage.DeleteError m = None →
  MockStorage.GetError m = None →
  MockStorage.ExistsError m = None →
  (MockStorage.DeleteObject m k).1 = None
  ∧ (MockStorage.GetObject (MockStorage.DeleteObject m k).2 k).1
    = ([], Some MockStorage.ErrObjectNotFound)
  ∧ isNotFoundError MockStorage.ErrObjectNotFound = true
  ∧ (MockStorage.ObjectExists (MockStorage.DeleteObject m k).2 k).1 = (false, None)
  ∧ ∀ k', k' ≠ k →
      (MockStorage.GetObject (MockStorage.DeleteObject m k).2 k').1
      = (MockStorage.GetObject m k').1.
Proof.
  intros Hdel Hget Hex.
  unfold MockStorage.DeleteObject, MockStorage.GetObject, MockStorage.ObjectExists; cbn.
  rewrite Hdel; cbn. rewrite Hget, Hex, lookup_delete_eq.
  split; [done|]. split; [done|]. split; [done|]. split.
  { rewrite bool_decide_eq_false_2; [done|]. by intros [? ?]. }
  intros k' Hne. rewrite lookup_delete_ne by done.
  by destruct (MockStorage.objects m !! k').
Qed.

(** X14.  [MockStorage]: with no error injected, [ObjectExists] reports true
    for exactly the keys for which [GetObject] succeeds, and neither call
    changes what is stored. *)
Theorem MockStorage_Exists_iff_Get (m : MockStorage.t) (k : string) :
  MockStorage.GetError m = None →
  MockStorage.ExistsError m = None →
  ((MockStorage.ObjectExists m k).1 = (true, None)
   ↔ (MockStorage.GetObject m k).1.2 = None)
  ∧ ((MockStorage.ObjectExists m k).1 = (false, None)
     ↔ (MockStorage.GetObject m k).1.2 = Some MockStorage.ErrObjectNotFound)
  ∧ MockStorage.objects (MockStorage.ObjectExists m k).2 = MockStorage.objects m
  ∧ MockStorage.objects (MockStorage.GetObject m k).2 = MockStorage.objects m.
Proof.
  intros Hget Hex. unfold MockStorage.GetObject, MockStorage.ObjectExists; cbn.
  rewrite Hget, Hex. destruct (MockStorage.objects m !! k) as [d|] eqn:Hk; cbn.
  - rewrite ?bool_decide_eq_true_2 by done. by repeat split.
  - rewrite ?bool_decide_eq_false_2 by (by intros [? ?]). by repeat split.
Qed.

Section redis.
Context {R : Type} `{!RedisClient R}.

(** X15.  [RedisCache.Get] maps the client's three outcomes to the
    contract of the Cache port: no error is a hit with the client's bytes;
    [redis.Nil] is a miss without error; any other error [e] is reported
    as an error whose text is "redis get error: " followed by the text of
    [e], with found=false and no bytes.  The configured TTL is kept. *)
Theorem RedisCache_Get_outcomes (c : RedisCache.t R) (k : string) :
  RedisCache.ttl (RedisCache.Get c k).2 = RedisCache.ttl c
  ∧ RedisCache.client (RedisCache.Get c k).2
    = (client_Get_Bytes (RedisCache.client c) k).2
  ∧ match (client_Get_Bytes (RedisCache.client c) k).1 with
    | (data, None) => (RedisCache.Get c k).1 = (data, true, None)
    | (_, Some e) =>
        if decide (e = redis_Nil) then (RedisCache.Get c k).1 = ([], false, None)
        else ∃ e', (RedisCache.Get c k).1 = ([], false, Some e')
                   ∧ Error e' = "redis get error: " +:+ Error e
    end.
Proof.
  unfold RedisCache.Get.
  destruct (client_Get_Bytes (RedisCache.client c) k) as [[data [e|]] cl]; cbn.
  - destruct (decide (e = redis_Nil)) as [->|Hne].
    + by rewrite decide_True.
    + rewrite decide_False by congruence. repeat split. by eexists.
  - by rewrite decide_False.
Qed.

End redis.

(** * The handler on the mocks *)

Section on_mocks.
Variable T : string → string.
Implicit Types (h : @FileHandler MockCache.t MockStorage.t) (r : Request).

(** What [MockCache.Get] answers, read off the state of the mock. *)
Lemma MockCache_Get_cases (m : MockCache.t) (k : string) (d : bytes) (f : bool)
  (e : option error) (m' : MockCache.t) :
  MockCache.Get m k = ((d, f, e), m') →
  MockCache.data m' = MockCache.data m
  ∧ MockCache.GetError m' = MockCache.GetError m
  ∧ MockCache.SetError m' = MockCache.SetError m
  ∧ e = MockCache.GetError m
  ∧ (if f then e = None ∧ MockCache.data m !! k = Some d
     else e ≠ None ∨ MockCache.data m !! k = None).
Proof.
  unfold MockCache.Get; cbn.
  destruct (MockCache.GetError m) as [e0|]; [|destruct (MockCache.data m !! k)];
    intros [= <- <- <- <-]; cbn; repeat split; auto.
Qed.

(** What [MockStorage.GetObject] answers, read off the state of the mock. *)
Lemma MockStorage_GetObject_cases (s : MockStorage.t) (k : string) (d : bytes)
  (e : option error) (s' : MockStorage.t) :
  MockStorage.GetObject s k = ((d, e), s') →
  MockStorage.objects s' = MockStorage.objects s
  ∧ MockStorage.GetError s' = MockStorage.GetError s
  ∧ match MockStorage.GetError s with
    | Some e0 => e = Some e0
    | None =>
        match MockStorage.objects s !! k with
        | Some d0 => d = d0 ∧ e = None
        | None => e = Some MockStorage.ErrObjectNotFound
        end
    end.
Proof.
  unfold MockStorage.GetObject; cbn.
  destruct (MockStorage.GetError s) as [e0|]; [|destruct (MockStorage.objects s !! k)];
    intros [= <- <- <-]; cbn; repeat split; auto.
Qed.

(** X16.  With the two mocks working ([GetError] nil on both) and a
    non-empty name, [GetFile] answers from the cache first and from
    storage second: the body is the entry for the name in the cache's data
    laid over the storage's objects (the cache entry wins when both hold
    the name).  When neither holds it, the answer is 404 "File not found",
    or 504 if the deadline has passed. *)
Theorem GetFile_cache_then_storage h r :
  PathValue r "name" ≠ "" →
  (∀ m, cache h = Some m → MockCache.GetError m = None) →
  MockStorage.GetError (storage h) = None →
  match (from_option MockCache.data ∅ (cache h) ∪ MockStorage.objects (storage h))
          !! PathValue r "name" with
  | Some d => responds (serve (GetFile T) h r) StatusOK (Raw d)
  | None =>
      if decide (ctx_Err r = Some DeadlineExceeded) then
        responds (serve (GetFile T) h r) StatusGatewayTimeout
          (JSON (mkResponse false "Request timeout" None))
      else
        responds (serve (GetFile T) h r) StatusNotFound
          (JSON (mkResponse false "File not found" None))
  end.
Proof.
  intros Hname Hcerr Hserr. GetFile_cases T h r; [done|..];
    apply MockStorage_GetObject_cases in Hobj as (_ & _ & Hobj);
    rewrite Hserr in Hobj; cbn [from_option].
  - apply MockCache_Get_cases in Hget as (_ & _ & _ & _ & _ & Hk).
    by rewrite (lookup_union_Some_l _ _ _ _ Hk).
  - apply MockCache_Get_cases in Hget as (_ & _ & _ & -> & Hk).
    rewrite (Hcerr c eq_refl) in Hk. destruct Hk as [?|Hk]; [done|].
    rewrite (lookup_union_r _ _ _ Hk).
    destruct (MockStorage.objects (storage h) !! PathValue r "name") as [d0|];
      [by destruct Hobj as [-> ->]|subst se].
    unfold storageWriter, responds; cbn [w]. by destruct (decide _).
  - rewrite (left_id_L ∅ (∪)).
    destruct (MockStorage.objects (storage h) !! PathValue r "name") as [d0|];
      [by destruct Hobj as [-> ->]|subst se].
    unfold storageWriter, responds; cbn [w]. by destruct (decide _).
Qed.

(** X17.  Serving a request changes nothing in the mocks but their call
    logs.  The cache mock, if configured, gets the name appended to
    [GetCalls] unless the name is empty; the storage mock gets the name
    appended to [GetCalls] unless the name is empty or the cache answered
    with a hit.  The stored objects, the cached data, the injected errors
    and every other call log are as before: the request itself never
    writes to either port. *)
Theorem GetFile_changes_call_logs_only h r :
  let name := PathValue r "name" in
  let hit := match cache h with
             | Some m => bool_decide (MockCache.GetError m = None
                                      ∧ is_Some (MockCache.data m !! name))
             | None => false
             end in
  cache (handler (serve (GetFile T) h r))
  = (λ m, MockCache.mk (MockCache.data m) (MockCache.GetError m) (MockCache.SetError m)
            (MockCache.PingError m) (MockCache.CloseError m)
            (MockCache.GetCalls m ++ (if decide (name = "") then [] else [name]))
            (MockCache.SetCalls m) (MockCache.PingCalls m) (MockCache.CloseCalls m))
      <$> cache h
  ∧ storage (handler (serve (GetFile T) h r))
    = let s := storage h in
      MockStorage.mk (MockStorage.objects s) (MockStorage.GetError s)
        (MockStorage.PutError s) (MockStorage.DeleteError s) (MockStorage.ExistsError s)
        (MockStorage.HealthCheckError s)
        (MockStorage.GetCalls s
         ++ (if decide (name = "") then [] else if hit then [] else [name]))
        (MockStorage.PutCalls s) (MockStorage.DeleteCalls s) (MockStorage.ExistsCalls s)
        (MockStorage.HealthCheckCalls s).
Proof.
  intros name hit. subst name hit.
  GetFile_cases T h r; cbn [handler cache storage].
  - split; [destruct (cache h) as [[]|]|destruct (storage h)]; cbn;
      by rewrite ?app_nil_r.
  - pose proof (MockCache_Get_cases _ _ _ _ _ _ Hget) as (_ & _ & _ & Hd & He & Hk).
    rewrite bool_decide_eq_true_2 by (split; [congruence|by rewrite Hk]).
    split; [|destruct (storage h); cbn; by rewrite app_nil_r].
    cbn in Hget |- *. unfold MockCache.Get in Hget. cbn in Hget.
    destruct (MockCache.GetError c); [done|].
    destruct (MockCache.data c !! PathValue r "name"); by simplify_eq.
  - pose proof (MockCache_Get_cases _ _ _ _ _ _ Hget) as (_ & _ & _ & -> & Hk).
    rewrite bool_decide_eq_false_2.
    2: { intros [He [d0 Hd0]]. destruct Hk; congruence. }
    split.
    + cbn in Hget |- *. unfold MockCache.Get in Hget. cbn in Hget.
      destruct (MockCache.GetError c); [by simplify_eq|].
      destruct (MockCache.data c !! PathValue r "name"); by simplify_eq.
    + cbn in Hobj |- *. unfold MockStorage.GetObject in Hobj. cbn in Hobj.
      destruct (MockStorage.GetError (storage h)); [by simplify_eq|].
      destruct (MockStorage.objects (storage h) !! PathValue r "name"); by simplify_eq.
  - split; [done|].
    cbn in Hobj |- *. unfold MockStorage.GetObject in Hobj. cbn in Hobj.
    destruct (MockStorage.GetError (storage h)); [by simplify_eq|].
    destruct (MockStorage.objects (storage h) !! PathValue r "name"); by simplify_eq.
Qed.

Lemma MockStorage_GetObject_answer (s : MockStorage.t) (k : string) :
  (MockStorage.GetObject s k).1
  = match MockStorage.GetError s with
    | Some e => ([], Some e)
    | None =>
        match MockStorage.objects s !! k with
        | Some d => (d, None)
        | None => ([], Some MockStorage.ErrObjectNotFound)
        end
    end.
Proof.
  unfold MockStorage.GetObject; cbn.
  destruct (MockStorage.GetError s); [done|]. by destruct (MockStorage.objects s !! k).
Qed.

(** The response of [GetFile] on the mocks, read off their state. *)
Lemma mock_GetFile_writer h r :
  w (serve (GetFile T) h r)
  = if decide (PathValue r "name" = "") then
      jsonWriter StatusBadRequest (mkResponse false "filename is required" None)
    else
      match cache h with
      | Some m =>
          match MockCache.GetError m, MockCache.data m !! PathValue r "name" with
          | None, Some d => fileWriter T (PathValue r "name") d
          | _, _ =>
              storageWriter T r (PathValue r "name")
                (MockStorage.GetObject (storage h) (PathValue r "name")).1.1
                (MockStorage.GetObject (storage h) (PathValue r "name")).1.2
          end
      | None =>
          storageWriter T r (PathValue r "name")
            (MockStorage.GetObject (storage h) (PathValue r "name")).1.1
            (MockStorage.GetObject (storage h) (PathValue r "name")).1.2
      end.
Proof.
  GetFile_cases T h r; cbn [w].
  - done.
  - apply MockCache_Get_cases in Hget as (_ & _ & _ & He & Hnone & Hk).
    by rewrite <-He, Hnone, Hk.
  - apply MockCache_Get_cases in Hget as (_ & _ & _ & He & Hk).
    cbn in Hobj. rewrite Hobj, <-He.
    destruct ce; [done|]. destruct Hk as [? | ->]; done.
  - cbn in Hobj. by rewrite Hobj.
Qed.

(** One request followed by its write-back, on the mocks: the storage
    keeps its objects; the cache keeps its data or gains, under the
    requested name, the bytes that storage holds for it and that were just
    served. *)
Lemma mock_request_step h r :
  let st := serve (GetFile T) h r in
  MockStorage.objects (storage (handler (settle st))) = MockStorage.objects (storage h)
  ∧ MockStorage.GetError (storage (handler (settle st))) = MockStorage.GetError (storage h)
  ∧ match cache h with
    | None => cache (handler (settle st)) = None
    | Some m =>
        ∃ m', cache (handler (settle st)) = Some m'
              ∧ MockCache.GetError m' = MockCache.GetError m
              ∧ (MockCache.data m' = MockCache.data m
                 ∨ ∃ d, w st = fileWriter T (PathValue r "name") d
                        ∧ MockStorage.objects (storage h) !! PathValue r "name" = Some d
                        ∧ (MockCache.GetError m = None →
                           MockCache.data m !! PathValue r "name" = None)
                        ∧ MockCache.data m'
                          = <[PathValue r "name" := d]> (MockCache.data m))
    end.
Proof.
  intros st. subst st. GetFile_cases T h r.
  - unfold settle; cbn. do 2 (split; [done|]). destruct (cache h) as [m|]; [|done].
    exists m. by repeat split; try left.
  - unfold settle; cbn. do 2 (split; [done|]).
    apply MockCache_Get_cases in Hget as (Hd & He & _). exists c'. by repeat split; try left.
  - apply MockStorage_GetObject_cases in Hobj as (Hobjs & Hserr & Hans).
    apply MockCache_Get_cases in Hget as (Hd & He & Hse & Hce & Hk).
    destruct se as [e|].
    + unfold settle; cbn. do 2 (split; [done|]). exists c'. by repeat split; try left.
    + rewrite settle_write_back; cbn [handler storage cache].
      do 2 (split; [done|]). eexists; split; [reflexivity|].
      cbn. unfold MockCache.Set_; cbn.
      destruct (MockStorage.GetError (storage h)); [done|].
      destruct (MockStorage.objects (storage h) !! PathValue r "name") as [d0|] eqn:Hk0;
        [destruct Hans as [-> _]|done].
      destruct (MockCache.SetError c'); cbn; (split; [done|]); [left; done|].
      right. exists d0. rewrite Hd. repeat split; try done.
      intros Hnone. rewrite Hnone in Hce. subst ce. by destruct Hk.
  - apply MockStorage_GetObject_cases in Hobj as (Hobjs & Hserr & Hans).
    unfold settle; cbn. by destruct se.
Qed.

(** X18.  The cache only ever holds what storage holds.  If every entry
    of the cache mock is an entry of the storage mock, this is still so
    after any sequence of requests, each followed by its write-back,
    whatever errors are injected; and the sequence leaves the stored
    objects untouched. *)
Theorem cache_stays_within_storage (rs : list Request) h :
  (∀ m, cache h = Some m → MockCache.data m ⊆ MockStorage.objects (storage h)) →
  MockStorage.objects (storage (serveAll T h rs)) = MockStorage.objects (storage h)
  ∧ ∀ m', cache (serveAll T h rs) = Some m' →
          MockCache.data m' ⊆ MockStorage.objects (storage (serveAll T h rs)).
Proof.
  revert h. induction rs as [|r rs IH]; intros h Hsub; [by split|].
  unfold serveAll in *; cbn [foldl].
  pose proof (mock_request_step h r) as (Hobjs & _ & Hcache). cbn zeta in *.
  destruct (IH (handler (settle (serve (GetFile T) h r)))) as [IH1 IH2].
  { intros m' Hm'. rewrite Hobjs. destruct (cache h) as [m|]; [|congruence].
    destruct Hcache as (m'' & Hm'' & _ & [Hsame|(d & _ & Hk & _ & Hins)]);
      rewrite Hm'' in Hm'; injection Hm' as <-.
    - rewrite Hsame. by apply Hsub.
    - rewrite Hins. apply insert_subseteq_l; [done|by apply Hsub]. }
  split; [by rewrite IH1|done].
Qed.

(** X19.  Asking again gives the same answer.  On the mocks, whatever
    errors are injected, the same request served a second time - right
    away, or after the write-back of the first has run - gets a response
    equal to the first one, header for header and byte for byte. *)
Theorem GetFile_repeatable h r :
  w (serve (GetFile T) (handler (serve (GetFile T) h r)) r) = w (serve (GetFile T) h r)
  ∧ w (serve (GetFile T) (handler (settle (serve (GetFile T) h r))) r)
    = w (serve (GetFile T) h r).
Proof.
  split.
  - rewrite (mock_GetFile_writer (handler _)), (mock_GetFile_writer h).
    destruct (decide _) as [|Hname]; [done|].
    rewrite !MockStorage_GetObject_answer.
    GetFile_cases T h r; try done; cbn [handler cache storage].
    + by apply MockCache_Get_cases in Hget as (-> & -> & _).
    + apply MockCache_Get_cases in Hget as (-> & -> & _).
      by apply MockStorage_GetObject_cases in Hobj as (-> & -> & _).
    + by apply MockStorage_GetObject_cases in Hobj as (-> & -> & _).
  - pose proof (mock_request_step h r) as (Hobjs & Hserr & Hcache). cbn zeta in *.
    rewrite (mock_GetFile_writer (handler _)).
    rewrite !MockStorage_GetObject_answer, Hobjs, Hserr.
    pose proof (mock_GetFile_writer h r) as Hfirst.
    rewrite !MockStorage_GetObject_answer in Hfirst.
    destruct (decide _) as [|Hname]; [done|].
    destruct (cache h) as [m|]; [|by rewrite Hcache].
    destruct Hcache as (m' & -> & -> & [->|(d & Hw & Hk & Hnone & ->)]); [done|].
    rewrite lookup_insert_eq, Hw.
    destruct (MockCache.GetError m) as [e|] eqn:He; [|done].
    rewrite Hw in Hfirst. rewrite Hfirst.
    destruct (MockStorage.GetError (storage h)); [done|]. by rewrite Hk.
Qed.

End on_mocks.

Lemma filter_absent (k : string) (l : list string) :
  k ∉ l → filter (k =.) l = [].
Proof.
  induction l as [|x l IH]; [done|]. rewrite not_elem_of_cons. intros [Hne Hl].
  rewrite filter_cons_False by done. by apply IH.
Qed.

Section cache_effect.
Variable T : string → string.
Implicit Types (h : @FileHandler MockCache.t MockStorage.t) (r : Request).

(** One request and its write-back on working mocks: storage is asked
    exactly when the name is non-empty and not cached, and the name is
    cached afterwards exactly if it was cached before or storage holds
    it. *)
Lemma working_mocks_step h r :
  mocksWork h →
  let h' := handler (settle (serve (GetFile T) h r)) in
  let name := PathValue r "name" in
  mocksWork h'
  ∧ MockStorage.objects (storage h') = MockStorage.objects (storage h)
  ∧ MockStorage.GetCalls (storage h')
    = (MockStorage.GetCalls (storage h)
       ++ (if decide (name = "") then []
           else match cached h name with Some _ => [] | None => [name] end))%list
  ∧ ∀ k, cached h' k
         = if decide (k = name ∧ name ≠ "" ∧ cached h name = None)
           then MockStorage.objects (storage h) !! name
           else cached h k.
Proof.
  intros [(m & Hm & Hge & Hse) Hsge] h' name. subst h' name. unfold mocksWork, cached.
  GetFile_cases T h r; simplify_eq.
  - unfold settle; cbn. rewrite Hm, app_nil_r. repeat split; eauto.
    intros k. rewrite decide_False; [done|]. by intros (_ & ? & _).
  - unfold settle; cbn.
    pose proof (MockCache_Get_cases _ _ _ _ _ _ Hget) as (Hd & Hge' & Hse' & _ & _ & Hk).
    split; [split; [exists c'; by rewrite Hge', Hse'|done]|].
    split; [done|]. split; [by rewrite Hk, app_nil_r|].
    intros k. rewrite Hd. destruct (decide _) as [(_ & _ & ?)|]; [congruence|done].
  - pose proof (MockCache_Get_cases _ _ _ _ _ _ Hget) as (Hd & Hge' & Hse' & Hce & Hk).
    rewrite Hge in Hce. subst ce. destruct Hk as [?|Hk]; [done|].
    pose proof (MockStorage_GetObject_cases _ _ _ _ _ Hobj) as (Hobjs & Hsge' & Hans).
    rewrite Hsge in Hans.
    assert (MockStorage.GetCalls s'
            = (MockStorage.GetCalls (storage h) ++ [PathValue r "name"])%list) as Hcalls.
    { cbn in Hobj. unfold MockStorage.GetObject in Hobj. cbn in Hobj. rewrite Hsge in Hobj.
      destruct (MockStorage.objects (storage h) !! PathValue r "name"); by simplify_eq. }
    destruct (MockStorage.objects (storage h) !! PathValue r "name") as [d0|] eqn:Hk0.
    + destruct Hans as [-> ->]. rewrite settle_write_back; cbn [handler storage cache].
      cbn. unfold MockCache.Set_; cbn. rewrite Hse', Hse; cbn.
      split; [split; [eexists; split; [done|]; cbn; by rewrite Hge', Hge|congruence]|].
      split; [done|]. split; [by rewrite Hk|].
      intros k. rewrite Hd. destruct (decide _) as [(-> & _ & _)|Hn].
      * by rewrite lookup_insert_eq.
      * rewrite lookup_insert_ne; [done|]. intros <-. by apply Hn.
    + subst se. unfold settle; cbn.
      split; [split; [exists c'; by rewrite Hge', Hse', Hge, Hse|congruence]|].
      split; [done|]. split; [by rewrite Hk|].
      intros k. rewrite Hd. by destruct (decide _) as [(-> & _ & _)|].
Qed.

(** X23.  What the cache buys.  On working mocks (no injected error), over
    any sequence of requests each followed by its write-back: a file that
    storage holds is fetched from storage at most once, and not at all if
    the cache already held it; a name that neither storage nor the cache
    holds is fetched from storage every time it is requested, the
    not-found answer never being cached. *)
Theorem stored_file_fetched_at_most_once (rs : list Request) h :
  mocksWork h →
  ∃ fetched,
    MockStorage.GetCalls (storage (serveAll T h rs))
    = (MockStorage.GetCalls (storage h) ++ fetched)%list
    ∧ ∀ k,
        (is_Some (MockStorage.objects (storage h) !! k) →
         (List.length (filter (k =.) fetched) ≤ 1)%nat
         ∧ (is_Some (cached h k) → k ∉ fetched))
        ∧ (MockStorage.objects (storage h) !! k = None → cached h k = None → k ≠ "" →
           List.length (filter (k =.) fetched)
           = List.length (filter (λ r, k = PathValue r "name") rs)).
Proof.
  revert h. induction rs as [|r rs IH]; intros h Hwork.
  { exists []. rewrite app_nil_r. split; [done|]. intros k.
    split; [intros _; split; [cbn; lia|by intros _ ?%elem_of_nil]|done]. }
  unfold serveAll in *; cbn [foldl].
  destruct (working_mocks_step h r Hwork) as (Hwork' & Hobjs & Hcalls & Hcached).
  cbn zeta in *.
  destruct (IH _ Hwork') as (fetched & Hrest & Hk). clear IH.
  rewrite Hrest, Hcalls, <-app_assoc. eexists; split; [reflexivity|].
  intros k. specialize (Hk k). specialize (Hcached k).
  rewrite Hobjs in Hk. destruct Hk as [Hstored Hmissing].
  destruct (decide (PathValue r "name" = "")) as [Hempty|Hname].
  { rewrite decide_False in Hcached by (by intros (_ & ? & _)). rewrite Hcached in *.
    cbn [app]. split; [done|]. intros Hnone Hc Hk. rewrite filter_cons_False by congruence.
    by apply Hmissing. }
  destruct (cached h (PathValue r "name")) as [d|] eqn:Hc.
  { rewrite decide_False in Hcached by (by intros (_ & _ & ?)). rewrite Hcached in *.
    cbn [app]. split; [done|]. intros Hnone Hck Hk.
    rewrite filter_cons_False by congruence. by apply Hmissing. }
  cbn [app]. destruct (decide (k = PathValue r "name")) as [->|Hne].
  - rewrite decide_True in Hcached by done. split.
    + intros [d Hsome]. rewrite Hsome in Hcached.
      destruct (Hstored (ex_intro _ _ Hsome)) as [_ Hnot].
      split; [|rewrite Hc; by intros [? ?]].
      rewrite filter_cons_True by done. cbn [length].
      rewrite (filter_absent _ _ (Hnot (ex_intro _ _ Hcached))). cbn; lia.
    + intros Hnone _ _. rewrite !filter_cons_True by done. cbn [length]. f_equal.
      apply Hmissing; [done| |done]. by rewrite Hcached.
  - rewrite decide_False in Hcached by (by intros [? _]). rewrite Hcached in *.
    rewrite !filter_cons_False by done. split; [|done].
    intros Hsome. destruct (Hstored Hsome) as [Hle Hnot]. split; [done|].
    intros Hsomec. rewrite elem_of_cons. intros [?|?]; [done|by apply Hnot].
Qed.

End cache_effect.

Section typed_responses.
Context {C S : Type} `{!Cache C, !Storage S}.
Variable T : string → string.
Implicit Types (h : @FileHandler C S) (r : Request).

(** X20.  Every response of [GetFile] carries exactly one Content-Type
    value and it is never empty.  On a 200 response it is the entry of the
    extension table for the extension of the requested name, or
    "application/octet-stream" when the table has none; on every other
    response it is "application/json".  Content-Disposition is set on the
    200 responses and on no other. *)
Theorem GetFile_response_is_typed h r :
  ∃ ct, Header (w (serve (GetFile T) h r)) !! "Content-Type" = Some [ct]
        ∧ ct ≠ ""
        ∧ (statusCode (w (serve (GetFile T) h r)) = Some StatusOK →
           ct = if String.eqb (T (filepath_Ext (PathValue r "name"))) ""
                then "application/octet-stream"
                else T (filepath_Ext (PathValue r "name")))
        ∧ (statusCode (w (serve (GetFile T) h r)) ≠ Some StatusOK →
           ct = "application/json")
        ∧ (is_Some (Header (w (serve (GetFile T) h r)) !! "Content-Disposition")
           ↔ statusCode (w (serve (GetFile T) h r)) = Some StatusOK).
Proof.
  assert (contentTypeOf T (PathValue r "name") ≠ "") as Hct.
  { unfold contentTypeOf.
    destruct (String.eqb_spec (T (filepath_Ext (PathValue r "name"))) ""); done. }
  assert (∀ rw : ResponseWriter,
            (∃ data, rw = fileWriter T (PathValue r "name") data)
            ∨ (∃ code v, code ≠ StatusOK ∧ rw = jsonWriter code v) →
            ∃ ct, Header rw !! "Content-Type" = Some [ct]
                  ∧ ct ≠ ""
                  ∧ (statusCode rw = Some StatusOK →
                     ct = if String.eqb (T (filepath_Ext (PathValue r "name"))) ""
                          then "application/octet-stream"
                          else T (filepath_Ext (PathValue r "name")))
                  ∧ (statusCode rw ≠ Some StatusOK → ct = "application/json")
                  ∧ (is_Some (Header rw !! "Content-Disposition")
                     ↔ statusCode rw = Some StatusOK)) as Hshape.
  { intros rw [[data ->]|(code & v & Hcode & ->)].
    - eexists. split; [apply fileWriter_Content_Type|].
      split; [done|]. split; [done|]. split; [done|].
      rewrite fileWriter_Content_Disposition. split; [done|by eexists].
    - eexists. cbn [jsonWriter Header statusCode].
      split; [apply lookup_singleton_eq|]. split; [done|].
      split; [intros [= ?]; done|]. split; [done|].
      rewrite lookup_singleton_ne by done. split; [by intros [? ?]|congruence]. }
  apply Hshape.
  assert (∀ sd se,
            (∃ data, storageWriter T r (PathValue r "name") sd se
                     = fileWriter T (PathValue r "name") data)
            ∨ (∃ code v, code ≠ StatusOK
                         ∧ storageWriter T r (PathValue r "name") sd se
                           = jsonWriter code v)) as Hsto.
  { intros sd [e|]; unfold storageWriter; [right|left; by eexists].
    destruct (decide _); [|destruct (isNotFoundError e)];
      do 2 eexists; (split; [|reflexivity]); done. }
  GetFile_cases T h r; cbn [w];
    [right; do 2 eexists; (split; [|reflexivity]); done|left; by eexists|apply Hsto..].
Qed.

End typed_responses.

(** * Configuration *)

Section config_properties.
Variable env : gmap string string.
Variable Atoi : string → Z * option error.
Variable ParseDuration : string → Z * option error.
Variable unicodeLower : string → string.

(** X21.  [Load] disables the cache exactly when REDIS_MODE is set to one
    of "disabled", "none", "off", "false" in any mix of upper and lower
    case; when the variable is unset or empty, or holds any other word, the
    cache is enabled.  (Stated for values made of ASCII bytes, on which
    [strings.ToLower] is the byte-wise lower-casing.) *)
Theorem Load_redis_mode :
  isASCII (default "" (env !! "REDIS_MODE")) = true →
  config.Mode (config.Redis (config.Load env Atoi ParseDuration unicodeLower))
  = config.RedisModeDisabled
  ↔ asciiLower (default "" (env !! "REDIS_MODE")) ∈ ["disabled"; "none"; "off"; "false"].
Proof.
  intros Hascii. unfold config.Load, config.getEnv, config.os_Getenv.
  cbn [config.Redis config.Mode]. rewrite !elem_of_cons, elem_of_nil.
  destruct (String.eqb_spec (default "" (env !! "REDIS_MODE")) "") as [->|Hne];
    cbn [negb].
  - split; [discriminate|]. by intros [?|[?|[?|[?|[]]]]].
  - unfold config.parseRedisMode, strings_ToLower. rewrite Hascii.
    destruct (String.eqb_spec (asciiLower (default "" (env !! "REDIS_MODE"))) "disabled");
      [cbn [orb]; split; [intros _; tauto|done]|].
    destruct (String.eqb_spec (asciiLower (default "" (env !! "REDIS_MODE"))) "none");
      [cbn [orb]; split; [intros _; tauto|done]|].
    destruct (String.eqb_spec (asciiLower (default "" (env !! "REDIS_MODE"))) "off");
      [cbn [orb]; split; [intros _; tauto|done]|].
    destruct (String.eqb_spec (asciiLower (default "" (env !! "REDIS_MODE"))) "false");
      [cbn [orb]; split; [intros _; tauto|done]|].
    cbn [orb]. split; [discriminate|]. by intros [?|[?|[?|[?|[]]]]].
Qed.

(** X22.  A variable set to the empty string counts as unset: the port,
    the log level and the Redis address that [Load] returns are never
    empty, each being the variable's value when that is non-empty and the
    built-in default ("8080", "info", "localhost:6379") otherwise. *)
Theorem Load_defaults_fill_empty :
  let cfg := config.Load env Atoi ParseDuration unicodeLower in
  config.Port cfg ≠ "" ∧ config.LogLevel cfg ≠ ""
  ∧ config.Addr (config.Redis cfg) ≠ ""
  ∧ config.Port cfg = (if decide (default "" (env !! "PORT") = "") then "8080"
                       else default "" (env !! "PORT"))
  ∧ config.LogLevel cfg = (if decide (default "" (env !! "LOG_LEVEL") = "") then "info"
                           else default "" (env !! "LOG_LEVEL"))
  ∧ config.Addr (config.Redis cfg)
    = (if decide (default "" (env !! "REDIS_ADDR") = "") then "localhost:6379"
       else default "" (env !! "REDIS_ADDR")).
Proof.
  assert (∀ key d, d ≠ "" →
            config.getEnv env key d ≠ ""
            ∧ config.getEnv env key d
              = (if decide (default "" (env !! key) = "") then d
                 else default "" (env !! key))) as Hget.
  { intros key d Hd. unfold config.getEnv, config.os_Getenv.
    destruct (String.eqb_spec (default "" (env !! key)) "") as [Heq|Hne]; cbn [negb].
    - by rewrite decide_True.
    - by rewrite decide_False. }
  cbn zeta. unfold config.Load.
  cbn [config.Port config.LogLevel config.Redis config.Addr].
  destruct (Hget "PORT" "8080") as [? ?]; [done|].
  destruct (Hget "LOG_LEVEL" "info") as [? ?]; [done|].
  destruct (Hget "REDIS_ADDR" "localhost:6379") as [? ?]; [done|].
  done.
Qed.

End config_properties.

(** * The further properties on concrete ports *)

Lemma write_back_only_after_storage_success_witness :
  spawned (serve (GetFile testTypeByExtension) coldHandler (fileRequest "a.txt"))
  = [WriteBack "a.txt" hello].
Proof.
  destruct (write_back_only_after_storage_success testTypeByExtension coldHandler
              (fileRequest "a.txt") (WriteBack "a.txt" hello)) as (_ & Hone & _).
  - vm_compute. constructor.
  - exact Hone.
Defined.

Lemma isNotFoundError_wrapped_witness :
  isNotFoundError
    (fmt_Errorf_w "failed to get object: "
       (fmt_Errorf_w "operation error S3: GetObject: " MockStorage.ErrObjectNotFound))
  = true.
Proof.
  apply (isNotFoundError_wrapped
           ["failed to get object: "; "operation error S3: GetObject: "]
           MockStorage.ErrObjectNotFound).
  reflexivity.
Defined.

Lemma MockCache_Set_then_Get_witness :
  (MockCache.Get (MockCache.Set_ MockCache.NewMockCache "a.txt" hello).2 "a.txt").1
  = (hello, true, None).
Proof.
  destruct (MockCache_Set_then_Get MockCache.NewMockCache "a.txt" hello)
    as (_ & Hget & _); [reflexivity..|].
  exact Hget.
Defined.

Lemma MockCache_failed_Set_witness :
  (MockCache.Get (MockCache.Set_ readOnlyCache "a.txt" hello).2 "a.txt").1
  = (MockCache.Get readOnlyCache "a.txt").1.
Proof.
  destruct (MockCache_failed_Set readOnlyCache "a.txt" hello MockCache.ErrCacheTimeout)
    as (_ & _ & Hsame); [reflexivity|].
  exact (Hsame "a.txt").
Defined.

Lemma MockStorage_Put_then_Get_witness :
  (MockStorage.GetObject
     (MockStorage.PutObject MockStorage.NewMockStorage "a.txt" hello "text/plain").2
     "a.txt").1
  = (hello, None).
Proof.
  destruct (MockStorage_Put_then_Get MockStorage.NewMockStorage "a.txt" "text/plain" hello)
    as (_ & Hget & _); [reflexivity..|].
  exact Hget.
Defined.

Lemma MockStorage_Delete_then_missing_witness :
  (MockStorage.GetObject (MockStorage.DeleteObject helloStorage "a.txt").2 "a.txt").1
  = ([], Some MockStorage.ErrObjectNotFound).
Proof.
  destruct (MockStorage_Delete_then_missing helloStorage "a.txt")
    as (_ & Hget & _); [reflexivity..|].
  exact Hget.
Defined.

Lemma MockStorage_Exists_iff_Get_witness :
  (MockStorage.ObjectExists helloStorage "a.txt").1 = (true, None)
  ↔ (MockStorage.GetObject helloStorage "a.txt").1.2 = None.
Proof.
  destruct (MockStorage_Exists_iff_Get helloStorage "a.txt")
    as (Hiff & _); [reflexivity..|].
  exact Hiff.
Defined.

Lemma GetFile_cache_then_storage_witness :
  responds (serve (GetFile testTypeByExtension) warmHandler (fileRequest "a.txt"))
    StatusOK (Raw stale).
Proof.
  pose proof (GetFile_cache_then_storage testTypeByExtension warmHandler
                (fileRequest "a.txt")) as H.
  assert (PathValue (fileRequest "a.txt") "name" ≠ "") as Hname by (vm_compute; discriminate).
  assert (∀ m, cache warmHandler = Some m → MockCache.GetError m = None) as Hcache
    by (by intros m [= <-]).
  exact (H Hname Hcache eq_refl).
Defined.

Lemma cache_stays_within_storage_witness :
  MockStorage.objects
    (storage (serveAll testTypeByExtension coldHandler
                [fileRequest "a.txt"; fileRequest "missing.txt"; fileRequest "a.txt"]))
  = MockStorage.objects helloStorage.
Proof.
  destruct (cache_stays_within_storage testTypeByExtension
              [fileRequest "a.txt"; fileRequest "missing.txt"; fileRequest "a.txt"]
              coldHandler) as [Hobjs _].
  - intros m [= <-]. apply map_empty_subseteq.
  - exact Hobjs.
Defined.

Lemma stored_file_fetched_at_most_once_witness :
  ∃ fetched,
    MockStorage.GetCalls
      (storage (serveAll testTypeByExtension coldHandler
                  [fileRequest "a.txt"; fileRequest "a.txt"; fileRequest "a.txt"]))
    = (MockStorage.GetCalls helloStorage ++ fetched)%list
    ∧ (List.length (filter ("a.txt" =.) fetched) ≤ 1)%nat.
Proof.
  destruct (stored_file_fetched_at_most_once testTypeByExtension
              [fileRequest "a.txt"; fileRequest "a.txt"; fileRequest "a.txt"] coldHandler)
    as (fetched & Hcalls & Hk).
  - split; [|reflexivity]. exists MockCache.NewMockCache. by repeat split.
  - exists fetched. split; [exact Hcalls|].
    destruct (Hk "a.txt") as [Hstored _]. apply Hstored. by eexists.
Defined.

Lemma Load_redis_mode_witness :
  config.Mode (config.Redis (config.Load cacheOffEnv noAtoi noParseDuration id))
  = config.RedisModeDisabled
  ↔ asciiLower (default "" (cacheOffEnv !! "REDIS_MODE"))
    ∈ ["disabled"; "none"; "off"; "false"].
Proof.
  apply (Load_redis_mode cacheOffEnv noAtoi noParseDuration id). reflexivity.
Defined.

(** The cache is off for REDIS_MODE=OFF, and on for an empty environment. *)
Example Load_cache_off :
  config.Mode (config.Redis (config.Load cacheOffEnv noAtoi noParseDuration id))
  = config.RedisModeDisabled.
Proof. reflexivity. Qed.

Example Load_empty_environment :
  config.Mode (config.Redis (config.Load ∅ noAtoi noParseDuration id))
  = config.RedisModeEnabled
  ∧ config.Port (config.Load ∅ noAtoi noParseDuration id) = "8080"
  ∧ config.CacheTTL (config.Redis (config.Load ∅ noAtoi noParseDuration id))
    = 300000000000%Z.
Proof. repeat split. Qed.
